(** * Retrieval core of the Medical Q&A bot: [backend/vectorDB.py]

    A shallow embedding of the module's three functions
    ([generate_embeddings], [load_knowledge_base], [get_knowledge_base])
    and of the module-level initialisation, together with the parts of
    Python, numpy and faiss whose behaviour the functions rely on. *)

From Stdlib Require Import String Ascii.
From Stdlib Require Import List ZArith NArith Lia Bool.
From Stdlib Require Import Sorting.Sorted Sorting.Permutation.
From Stdlib Require Import Relations.Relation_Definitions Classes.RelationClasses.
Import ListNotations.

(* ------------------------------------------------------------------ *)
(** ** Python strings *)
(* ------------------------------------------------------------------ *)

(** A Python [str] is a sequence of Unicode code points. *)
Module PyStr.

Definition char := N.
Definition str := list char.

(** An ASCII literal of the source, as a [str]. *)
Definition lit (s : string) : str :=
  map N_of_ascii (list_ascii_of_string s).

Fixpoint eqb (s t : str) : bool :=
  match s, t with
  | [], [] => true
  | c :: s', c' :: t' => N.eqb c c' && eqb s' t'
  | _, _ => false
  end.

(** [str.isspace] on one code point: the characters that [str.strip()]
    removes when called without argument. *)
Definition isspace (c : char) : bool :=
  ((9 <=? c) && (c <=? 13)            (* \t \n \v \f \r *)
   || (28 <=? c) && (c <=? 31)        (* FS GS RS US *)
   || (c =? 32)                       (* space *)
   || (c =? 133) || (c =? 160)        (* NEL, NBSP *)
   || (c =? 5760)                     (* U+1680 *)
   || (8192 <=? c) && (c <=? 8202)    (* U+2000 .. U+200A *)
   || (c =? 8232) || (c =? 8233)      (* U+2028, U+2029 *)
   || (c =? 8239) || (c =? 8287)      (* U+202F, U+205F *)
   || (c =? 12288))%N.                (* U+3000 *)

Fixpoint lstrip (s : str) : str :=
  match s with
  | [] => []
  | c :: s' => if isspace c then lstrip s' else s
  end.

Definition rstrip (s : str) : str := rev (lstrip (rev s)).

(** [s.strip()] *)
Definition strip (s : str) : str := rstrip (lstrip s).

(** [s.endswith(suffix)] *)
Definition endswith (s suffix : str) : bool :=
  (length suffix <=? length s)%nat
  && eqb (skipn (length s - length suffix) s) suffix.

(** Truth value of a [str]: the empty string is falsy. *)
Definition truthy (s : str) : bool :=
  match s with [] => false | _ :: _ => true end.

Definition blank (s : str) : bool := forallb isspace s.

End PyStr.

Definition str := PyStr.str.

(* ------------------------------------------------------------------ *)
(** ** numpy arrays and the faiss flat L2 index *)
(* ------------------------------------------------------------------ *)

(** The module uses one faiss class, [IndexFlatL2], through three
    operations: the constructor, [add] and [search].  The index is exact
    (brute force): [search] ranks every stored vector by its squared
    Euclidean distance to the query.

    Vector components are float32 in the program.  They are modelled by
    integers: on integers of small magnitude float32 subtraction,
    multiplication and addition are exact, so distances and their order
    agree with the program's on every concrete vector used below. *)
Module Faiss.

Definition scalar := Z.
Definition vec := list scalar.

(** A 2-D array as the list of its rows. *)
Definition matrix := list vec.

(** [np.vstack(rows)] of 1xN arrays: a ValueError ([None]) unless there
    is at least one row and every row has the width of the first. *)
Definition vstack (rows : list vec) : option matrix :=
  match rows with
  | [] => None
  | r :: _ =>
      if forallb (fun r' => length r' =? length r)%nat rows
      then Some rows else None
  end.

(** [x.shape[1]] of a matrix built by [vstack]. *)
Definition width (x : matrix) : nat :=
  match x with [] => 0%nat | r :: _ => length r end.

Record IndexFlatL2 := { d : nat; xb : list vec }.

(** [faiss.IndexFlatL2(dim)] *)
Definition new (dim : nat) : IndexFlatL2 := {| d := dim; xb := [] |}.

Definition ntotal (ix : IndexFlatL2) : nat := length (xb ix).

(** [index.add(x)]: the wrapper asserts [x.shape[1] == index.d]
    ([None] is the AssertionError); the rows are appended in order. *)
Definition add (ix : IndexFlatL2) (x : matrix) : option IndexFlatL2 :=
  if (width x =? d ix)%nat
  then Some {| d := d ix; xb := xb ix ++ x |}
  else None.

(** Squared Euclidean distance. *)
Fixpoint L2sqr (x y : vec) : Z :=
  match x, y with
  | a :: x', b :: y' => ((a - b) * (a - b) + L2sqr x' y')%Z
  | _, _ => 0%Z
  end.

(** A candidate neighbour: its distance to the query and its position
    (label) in the index. *)
Definition candidate := (Z * Z)%type.

Fixpoint candidates_from (pos : Z) (q : vec) (vs : list vec)
  : list candidate :=
  match vs with
  | [] => []
  | v :: vs' => (L2sqr q v, pos) :: candidates_from (pos + 1)%Z q vs'
  end.

Fixpoint insert (c : candidate) (l : list candidate) : list candidate :=
  match l with
  | [] => [c]
  | c' :: l' =>
      if (fst c <=? fst c')%Z then c :: l else c' :: insert c l'
  end.

(** All stored vectors by ascending distance.  Among equidistant
    vectors faiss gives no guarantee; here the lower position wins. *)
Definition ranked (ix : IndexFlatL2) (q : vec) : list candidate :=
  fold_right insert [] (candidates_from 0%Z q (xb ix)).

(** [index.search(q, k)] for a single query row: the wrapper asserts
    that the query has the index's dimension ([None] is the
    AssertionError).  The result rows have exactly [k] entries; when the
    index holds fewer than [k] vectors the missing labels are [-1] and
    the missing distances the largest float ([None] here). *)
Definition search (ix : IndexFlatL2) (q : vec) (k : nat)
  : option (list (option Z) * list Z) :=
  if (length q =? d ix)%nat then
    let best := firstn k (ranked ix q) in
    let missing := (k - length best)%nat in
    Some (map (fun c => Some (fst c)) best ++ repeat None missing,
          map snd best ++ repeat (-1)%Z missing)
  else None.

End Faiss.

(* ------------------------------------------------------------------ *)
(** ** Python lists, exceptions and the effect monad *)
(* ------------------------------------------------------------------ *)

(** [l[i]] on a Python list: negative positions count from the end;
    [None] is the IndexError. *)
Definition py_getitem {A : Type} (l : list A) (i : Z) : option A :=
  if (0 <=? i)%Z then nth_error l (Z.to_nat i)
  else if (- Z.of_nat (length l) <=? i)%Z
       then nth_error l (Z.to_nat (Z.of_nat (length l) + i))
       else None.

Inductive exn : Type :=
| ValueError (msg : string)  (* raised by [load_knowledge_base] itself *)
| NumpyValueError            (* [np.vstack] on rows of unequal width *)
| AssertionError             (* faiss dimension check in [add]/[search] *)
| ProviderError              (* any exception out of the embeddings call *)
| OSError                    (* [os.listdir], [open] or [read] failing *)
| AttributeError             (* method called on [None] *)
| NameError                  (* global read before it is bound *)
| IndexError.                (* list index out of range *)

Inductive result (A : Type) : Type :=
| Ok (a : A)
| Raise (e : exn).
Arguments Ok {A} a.
Arguments Raise {A} e.

Definition document := (str * str)%type.

(** The module's global variables.  [knowledge_base_documents] is bound
    only once [load_knowledge_base] has returned. *)
Record Globals : Type := {
  embedding_dimension : option nat;
  index : option Faiss.IndexFlatL2;
  knowledge_base_documents : option (list document)
}.

(** What the module does to the outside: calls to the embeddings
    endpoint and searches of the index. *)
Inductive event : Type :=
| EmbedCall (text : str)
| SearchCall (query : Faiss.vec) (k : nat).

Record World : Type := {
  globals : Globals;
  trace : list event   (* oldest first *)
}.

Definition M (A : Type) : Type := World -> result A * World.

Definition ret {A} (a : A) : M A := fun w => (Ok a, w).

Definition raise {A} (e : exn) : M A := fun w => (Raise e, w).

Definition bind {A B} (c : M A) (k : A -> M B) : M B :=
  fun w =>
    match c w with
    | (Ok a, w') => k a w'
    | (Raise e, w') => (Raise e, w')
    end.

Declare Scope py_scope.
Delimit Scope py_scope with py.
Notation "x <- c ;; k" := (bind c (fun x => k))
  (at level 61, c at next level, right associativity) : py_scope.
Notation "c ;; k" := (bind c (fun _ => k))
  (at level 61, right associativity) : py_scope.
Local Open Scope py_scope.

Definition get_globals : M Globals := fun w => (Ok (globals w), w).

Definition set_globals (g : Globals) : M unit :=
  fun w => (Ok tt, {| globals := g; trace := trace w |}).

Definition emit (e : event) : M unit :=
  fun w => (Ok tt, {| globals := globals w; trace := trace w ++ [e] |}).

Definition lift_option {A} (o : option A) (e : exn) : M A :=
  match o with Some a => ret a | None => raise e end.

Definition is_embed (e : event) : bool :=
  match e with EmbedCall _ => true | SearchCall _ _ => false end.

(** Number of embedding calls made so far. *)
Definition embed_calls (t : list event) : nat :=
  length (filter is_embed t).

(** The source directory ["./phase2_data"] as the build finds it. *)
Inductive source : Type :=
| Absent                                   (* the path does not exist *)
| NotADirectory                            (* it exists, [listdir] fails *)
| Directory (entries : list (str * option str)).
    (* in [os.listdir] order: entry name, and what opening and reading it
       as UTF-8 text yields ([None] when that raises) *)

(* ------------------------------------------------------------------ *)
(** ** The module [vectorDB] *)
(* ------------------------------------------------------------------ *)

Section VectorDB.

(** The embeddings endpoint: what the [n]-th call (counting from 0)
    answers on a text; [None] when the call raises (network,
    authentication, quota, malformed response). *)
Variable provider : nat -> str -> option Faiss.vec.

(** The knowledge-base directory. *)
Variable phase2_data : source.

(** [generate_embeddings(text)]: one round trip, a 1xN array back. *)
Definition generate_embeddings (text : str) : M Faiss.vec :=
  fun w =>
    let n := embed_calls (trace w) in
    (emit (EmbedCall text) ;;
     lift_option (provider n text) ProviderError) w.

(** Lines 93-97: read every listed file, in order. *)
Fixpoint read_documents (html_files : list (str * option str))
  : M (list document) :=
  match html_files with
  | [] => ret []
  | (filename, file) :: rest =>
      content <- lift_option file OSError ;;
      documents <- read_documents rest ;;
      ret ((filename, content) :: documents)
  end.

(** Lines 102-112: embed every document, in order; the first embedding
    seen while [embedding_dimension] is [None] fixes the dimension and
    allocates the index. *)
Fixpoint embed_documents (documents : list document)
  : M (list Faiss.vec) :=
  match documents with
  | [] => ret []
  | doc :: rest =>
      embedding <- generate_embeddings (snd doc) ;;
      g <- get_globals ;;
      match embedding_dimension g with
      | None =>
          set_globals
            {| embedding_dimension := Some (length embedding);
               index := Some (Faiss.new (length embedding));
               knowledge_base_documents := knowledge_base_documents g |}
      | Some _ => ret tt
      end ;;
      embeddings <- embed_documents rest ;;
      ret (embedding :: embeddings)
  end.

(** Line 115: [index.add(np.vstack(embeddings))]. *)
Definition add_to_index (embeddings : list Faiss.vec) : M unit :=
  g <- get_globals ;;
  ix <- lift_option (index g) AttributeError ;;
  x <- lift_option (Faiss.vstack embeddings) NumpyValueError ;;
  ix' <- lift_option (Faiss.add ix x) AssertionError ;;
  set_globals
    {| embedding_dimension := embedding_dimension g;
       index := Some ix';
       knowledge_base_documents := knowledge_base_documents g |}.

Definition is_html (entry : str * option str) : bool :=
  PyStr.endswith (fst entry) (PyStr.lit ".html").

Definition load_knowledge_base : M (list document) :=
  match phase2_data with
  | Absent =>
      raise (ValueError
               "Knowledge base directory not found: ./phase2_data")
  | NotADirectory => raise OSError
  | Directory entries =>
      let html_files := filter is_html entries in
      match html_files with
      | [] => raise (ValueError "No HTML files found in ./phase2_data")
      | _ :: _ =>
          documents <- read_documents html_files ;;
          embeddings <- embed_documents documents ;;
          add_to_index embeddings ;;
          ret documents
      end
  end.

(** Lines 56-57 and 119: what importing the module does. *)
Definition module_init : M unit :=
  set_globals {| embedding_dimension := None;
                 index := None;
                 knowledge_base_documents := None |} ;;
  documents <- load_knowledge_base ;;
  g <- get_globals ;;
  set_globals {| embedding_dimension := embedding_dimension g;
                 index := index g;
                 knowledge_base_documents := Some documents |}.

Definition no_question : document :=
  (PyStr.lit "no_document.html",
   PyStr.lit "Please ask a specific question about medical services.").

Definition not_found : document :=
  (PyStr.lit "no_document.html",
   PyStr.lit "I couldn't find information related to your question in my knowledge base.").

(** Line 137 on a string: [not query], or [query.strip()] equal to the
    empty string. *)
Definition degenerate (query : str) : bool :=
  negb (PyStr.truthy query) || PyStr.eqb (PyStr.strip query) [].

(** Lines 148-151: the loop over [indices[0]]. *)
Fixpoint closest_loop (kb : option (list document)) (indices : list Z)
         (closest_documents : list document) : M (list document) :=
  match indices with
  | [] => ret closest_documents
  | idx :: rest =>
      docs <- lift_option kb NameError ;;
      if (idx <? Z.of_nat (length docs))%Z then
        doc <- lift_option (py_getitem docs idx) IndexError ;;
        closest_loop kb rest (closest_documents ++ [doc])
      else closest_loop kb rest closest_documents
  end.

(** Lines 140-157: the path of a query that passed line 137. *)
Definition retrieve (query : str) : M (list document) :=
  query_embedding <- generate_embeddings query ;;
  g <- get_globals ;;
  ix <- lift_option (index g) AttributeError ;;
  emit (SearchCall query_embedding 4) ;;
  found <- lift_option (Faiss.search ix query_embedding 4)
                       AssertionError ;;
  closest_documents <-
    closest_loop (knowledge_base_documents g) (snd found) [] ;;
  match closest_documents with
  | [] => ret [not_found]
  | _ :: _ => ret closest_documents
  end.

(** [get_knowledge_base(query)]; the argument [None] is Python's
    [None], for which [not query] holds. *)
Definition get_knowledge_base (query : option str)
  : M (list document) :=
  match query with
  | None => ret [no_question]
  | Some q => if degenerate q then ret [no_question] else retrieve q
  end.

End VectorDB.

(* ------------------------------------------------------------------ *)
(** ** Notions used to state the properties *)
(* ------------------------------------------------------------------ *)

(** A computation that leaves the module's globals alone. *)
Definition keeps_globals {A} (c : M A) : Prop :=
  forall w, globals (snd (c w)) = globals w.

(** The globals after the embedding loop, as a function of the globals
    before it and of the embeddings obtained. *)
Definition after_embedding (g : Globals) (embs : list Faiss.vec)
  : Globals :=
  match embedding_dimension g, embs with
  | None, v :: _ =>
      {| embedding_dimension := Some (length v);
         index := Some (Faiss.new (length v));
         knowledge_base_documents := knowledge_base_documents g |}
  | _, _ => g
  end.

(** The world in which the embedding loop continues after the embedding
    [v] of [doc] has arrived. *)
Definition after_one (w : World) (doc : document) (v : Faiss.vec)
  : World :=
  {| globals := after_embedding (globals w) [v];
     trace := trace w ++ [EmbedCall (snd doc)] |}.

(** The state a build leaves behind: [n0] embedding calls had been
    made before it started, [docs] is the list it returned. *)
Definition built (provider : nat -> str -> option Faiss.vec)
  (n0 : nat) (docs : list document) (g : Globals) : Prop :=
  exists D embs,
    embedding_dimension g = Some D
    /\ index g = Some {| Faiss.d := D; Faiss.xb := embs |}
    /\ docs <> []
    /\ length embs = length docs
    /\ Forall (fun v => length v = D) embs
    /\ (forall i doc, nth_error docs i = Some doc ->
          exists v, nth_error embs i = Some v
                    /\ provider (n0 + i) (snd doc) = Some v).

(** What one iteration of the loop at lines 149-151 appends for the
    position [idx], when indexing does not raise. *)
Definition picked (docs : list document) (idx : Z) : list document :=
  if (idx <? Z.of_nat (length docs))%Z then
    match py_getitem docs idx with Some doc => [doc] | None => [] end
  else [].

(** Candidates compared by distance. *)
Definition by_distance (a b : Faiss.candidate) : Prop :=
  (fst a <= fst b)%Z.

(** The candidate [c] names a position of [vs] and carries the distance
    from [q] to the vector stored there. *)
Definition stored_at (vs : list Faiss.vec) (q : Faiss.vec)
  (c : Faiss.candidate) : Prop :=
  (0 <= snd c)%Z
  /\ exists v, nth_error vs (Z.to_nat (snd c)) = Some v
               /\ fst c = Faiss.L2sqr q v.

(* ------------------------------------------------------------------ *)
(** ** Distances of returned documents *)
(* ------------------------------------------------------------------ *)

(** Position of the first document called [name]. *)
Fixpoint position_of (name : str) (docs : list document) : option nat :=
  match docs with
  | [] => None
  | doc :: rest =>
      if PyStr.eqb (fst doc) name then Some 0%nat
      else option_map S (position_of name rest)
  end.

(** Distance from [q] to the vector stored for [doc], through the
    positional correspondence between the document list and the index. *)
Definition stored_distance (g : Globals) (q : Faiss.vec) (doc : document)
  : option Z :=
  match knowledge_base_documents g, index g with
  | Some docs, Some ix =>
      match position_of (fst doc) docs with
      | Some i => option_map (Faiss.L2sqr q) (nth_error (Faiss.xb ix) i)
      | None => None
      end
  | _, _ => None
  end.

(** Ascending order of a list of distances. *)
Fixpoint ascending (ds : list Z) : bool :=
  match ds with
  | a :: ((b :: _) as rest) => (a <=? b)%Z && ascending rest
  | _ => true
  end.

(* ------------------------------------------------------------------ *)
(** ** Fixtures: small knowledge bases and a table-driven provider *)
(* ------------------------------------------------------------------ *)

Module Fixture.

Definition lit := PyStr.lit.

(** The world before the module is imported. *)
Definition fresh : World :=
  {| globals := {| embedding_dimension := None;
                   index := None;
                   knowledge_base_documents := None |};
     trace := [] |}.

(** A provider answering from a table; texts outside it fail. *)
Definition table (tbl : list (str * Faiss.vec))
  : nat -> str -> option Faiss.vec :=
  fun _ text =>
    option_map snd (find (fun row => PyStr.eqb (fst row) text) tbl).

Definition embeddings : list (str * Faiss.vec) :=
  [ (lit "A", [0; 0]%Z);
    (lit "B", [3; 0]%Z);
    (lit "C", [0; 5]%Z);
    (lit "D", [7; 7]%Z);
    (lit "where is the clinic", [3; 1]%Z) ].

Definition provider := table embeddings.

(** The same provider with a fault at its [n]-th call only. *)
Definition faulty_at (n : nat) : nat -> str -> option Faiss.vec :=
  fun m text => if (m =? n)%nat then None else provider m text.

Definition question : str := lit "where is the clinic".

Definition doc_a : document := (lit "a.html", lit "A").
Definition doc_b : document := (lit "b.html", lit "B").
Definition doc_c : document := (lit "c.html", lit "C").
Definition doc_d : document := (lit "d.html", lit "D").

Definition file (doc : document) : str * option str :=
  (fst doc, Some (snd doc)).

Definition one_document : source := Directory [file doc_a].

Definition two_documents : source :=
  Directory [file doc_a; (lit "notes.txt", Some (lit "B")); file doc_b].

(** The nearest document to [question] is listed last. *)
Definition three_documents : source :=
  Directory [file doc_a; file doc_c; file doc_b].

Definition four_documents : source :=
  Directory [file doc_a; file doc_b; file doc_c; file doc_d].

Definition no_html : source :=
  Directory [(lit "notes.txt", Some (lit "A"));
             (lit "html", Some (lit "B"))].

(** The world once the module has been imported over [src]. *)
Definition imported (src : source) : World :=
  snd (module_init provider src fresh).

(** The world after importing the module over [two_documents] and
    answering one query, all through the provider [p]. *)
Definition served (p : nat -> str -> option Faiss.vec) : World :=
  snd (get_knowledge_base p (Some question)
         (snd (module_init p two_documents fresh))).

(** A state in which the index holds more vectors than the document
    list has entries. *)
Definition misaligned : World :=
  {| globals :=
       {| embedding_dimension := Some 2%nat;
          index := Some {| Faiss.d := 2;
                           Faiss.xb := [[50; 50]; [3; 1]; [3; 2];
                                        [5; 1]; [3; 4]]%Z |};
          knowledge_base_documents := Some [doc_a] |};
     trace := [] |}.

End Fixture.

(* ------------------------------------------------------------------ *)
(** ** More of Python's [str]: text literals, search, split, join *)
(* ------------------------------------------------------------------ *)

Module PyText.

(** Decoding of UTF-8: the literals of the sources that hold Hebrew text
    are written below as they are in the source files, and read as the
    code points they denote. *)
Fixpoint utf8_decode (bytes : list N) : str :=
  match bytes with
  | [] => []
  | b :: rest =>
      if (b <? 128)%N then b :: utf8_decode rest
      else if (b <? 224)%N then
        match rest with
        | c1 :: rest1 =>
            ((b - 192) * 64 + (c1 - 128))%N :: utf8_decode rest1
        | [] => []
        end
      else if (b <? 240)%N then
        match rest with
        | c1 :: c2 :: rest2 =>
            ((b - 224) * 4096 + (c1 - 128) * 64 + (c2 - 128))%N
              :: utf8_decode rest2
        | _ => []
        end
      else
        match rest with
        | c1 :: c2 :: c3 :: rest3 =>
            ((b - 240) * 262144 + (c1 - 128) * 4096
             + (c2 - 128) * 64 + (c3 - 128))%N
              :: utf8_decode rest3
        | _ => []
        end
  end.

Definition text (s : string) : str :=
  utf8_decode (map N_of_ascii (list_ascii_of_string s)).

Fixpoint starts_with (prefix s : str) : bool :=
  match prefix, s with
  | [], _ => true
  | p :: prefix', c :: s' => (p =? c)%N && starts_with prefix' s'
  | _ :: _, [] => false
  end.

(** [needle in hay] *)
Fixpoint contains (needle hay : str) : bool :=
  starts_with needle hay
  || match hay with
     | [] => false
     | _ :: hay' => contains needle hay'
     end.

(** [any(k in s for k in keywords)] *)
Definition any_in (keywords : list str) (s : str) : bool :=
  existsb (fun k => contains k s) keywords.

(** [s.split()]: the maximal runs of non-whitespace characters;
    [word] is the run being read, last character first. *)
Fixpoint split_from (s : str) (word : str) : list str :=
  match s with
  | [] => match word with [] => [] | _ :: _ => [rev word] end
  | c :: s' =>
      if PyStr.isspace c then
        match word with
        | [] => split_from s' []
        | _ :: _ => rev word :: split_from s' []
        end
      else split_from s' (c :: word)
  end.

Definition split (s : str) : list str := split_from s [].

(** [sep.join(parts)] *)
Fixpoint join (sep : str) (parts : list str) : str :=
  match parts with
  | [] => []
  | [p] => p
  | p :: more => p ++ sep ++ join sep more
  end.

Fixpoint uint_digits (d : Decimal.uint) : str :=
  match d with
  | Decimal.Nil => []
  | Decimal.D0 d' => 48%N :: uint_digits d'
  | Decimal.D1 d' => 49%N :: uint_digits d'
  | Decimal.D2 d' => 50%N :: uint_digits d'
  | Decimal.D3 d' => 51%N :: uint_digits d'
  | Decimal.D4 d' => 52%N :: uint_digits d'
  | Decimal.D5 d' => 53%N :: uint_digits d'
  | Decimal.D6 d' => 54%N :: uint_digits d'
  | Decimal.D7 d' => 55%N :: uint_digits d'
  | Decimal.D8 d' => 56%N :: uint_digits d'
  | Decimal.D9 d' => 57%N :: uint_digits d'
  end.

(** [str(n)] for a non-negative integer. *)
Definition of_nat (n : nat) : str := uint_digits (Nat.to_uint n).

End PyText.

(* ------------------------------------------------------------------ *)
(** ** Requests: JSON values, messages, user information *)
(* ------------------------------------------------------------------ *)

(** What a [Dict[str, Any]] parsed from a JSON body can hold.  A float is
    given by the 64 bits of its representation. *)
#[local] Unset Elimination Schemes.
Inductive value : Type :=
| VNone
| VBool (b : bool)
| VInt (z : Z)
| VFloat (bits : N)
| VStr (s : str)
| VList (items : list value)
| VDict (items : list (str * value)).
#[local] Set Elimination Schemes.

(** Truth value, as [not v] and [if v] see it. *)
Definition truthy (v : value) : bool :=
  match v with
  | VNone => false
  | VBool b => b
  | VInt z => negb (z =? 0)%Z
  | VFloat bits => negb ((bits =? 0)%N || (bits =? 2 ^ 63)%N)
  | VStr s => PyStr.truthy s
  | VList items => match items with [] => false | _ :: _ => true end
  | VDict items => match items with [] => false | _ :: _ => true end
  end.

(** [v == "literal"] *)
Definition is_str (v : value) (literal : str) : bool :=
  match v with
  | VStr s => PyStr.eqb s literal
  | _ => false
  end.

(** One entry of the conversation history: a dict from keys to values,
    in insertion order (the keys of a dict are distinct). *)
Definition message := list (str * value).

(** [d[key]]; [None] is the KeyError. *)
Fixpoint dict_get (d : message) (key : str) : option value :=
  match d with
  | [] => None
  | (k, v) :: d' => if PyStr.eqb k key then Some v else dict_get d' key
  end.

(** [UserInfo] of [models.py], which is also the shape of the dict that
    [model_dump()] hands to the functions below: every key is present,
    with the type declared. *)
Record UserInfo : Type := {
  first_name : str;
  last_name : str;
  id_number : str;
  gender : str;
  age : Z;
  hmo_name : str;
  hmo_card_number : str;
  membership_tier : str;
  conversation_history : list message
}.

(** [updated_info[key] = v], key by key. *)
Definition set_first_name (u : UserInfo) (v : str) : UserInfo :=
  {| first_name := v; last_name := last_name u;
     id_number := id_number u; gender := gender u; age := age u;
     hmo_name := hmo_name u; hmo_card_number := hmo_card_number u;
     membership_tier := membership_tier u;
     conversation_history := conversation_history u |}.

Definition set_last_name (u : UserInfo) (v : str) : UserInfo :=
  {| first_name := first_name u; last_name := v;
     id_number := id_number u; gender := gender u; age := age u;
     hmo_name := hmo_name u; hmo_card_number := hmo_card_number u;
     membership_tier := membership_tier u;
     conversation_history := conversation_history u |}.

Definition set_id_number (u : UserInfo) (v : str) : UserInfo :=
  {| first_name := first_name u; last_name := last_name u;
     id_number := v; gender := gender u; age := age u;
     hmo_name := hmo_name u; hmo_card_number := hmo_card_number u;
     membership_tier := membership_tier u;
     conversation_history := conversation_history u |}.

Definition set_gender (u : UserInfo) (v : str) : UserInfo :=
  {| first_name := first_name u; last_name := last_name u;
     id_number := id_number u; gender := v; age := age u;
     hmo_name := hmo_name u; hmo_card_number := hmo_card_number u;
     membership_tier := membership_tier u;
     conversation_history := conversation_history u |}.

Definition set_age (u : UserInfo) (v : Z) : UserInfo :=
  {| first_name := first_name u; last_name := last_name u;
     id_number := id_number u; gender := gender u; age := v;
     hmo_name := hmo_name u; hmo_card_number := hmo_card_number u;
     membership_tier := membership_tier u;
     conversation_history := conversation_history u |}.

Definition set_hmo_name (u : UserInfo) (v : str) : UserInfo :=
  {| first_name := first_name u; last_name := last_name u;
     id_number := id_number u; gender := gender u; age := age u;
     hmo_name := v; hmo_card_number := hmo_card_number u;
     membership_tier := membership_tier u;
     conversation_history := conversation_history u |}.

Definition set_hmo_card_number (u : UserInfo) (v : str) : UserInfo :=
  {| first_name := first_name u; last_name := last_name u;
     id_number := id_number u; gender := gender u; age := age u;
     hmo_name := hmo_name u; hmo_card_number := v;
     membership_tier := membership_tier u;
     conversation_history := conversation_history u |}.

Definition set_membership_tier (u : UserInfo) (v : str) : UserInfo :=
  {| first_name := first_name u; last_name := last_name u;
     id_number := id_number u; gender := gender u; age := age u;
     hmo_name := hmo_name u; hmo_card_number := hmo_card_number u;
     membership_tier := v;
     conversation_history := conversation_history u |}.

(** Exceptions of the request handlers. *)
Inductive app_exn : Type :=
| Retrieval (e : exn)          (* raised inside [get_knowledge_base] *)
| KeyError (key : str)         (* a message without that key *)
| NotAString                   (* AttributeError: str method on a non-str *)
| InvalidPhase (phase : str)   (* ValueError of [get_openai_response] *)
| ChatError.                   (* any exception out of the chat call *)

Inductive outcome (A : Type) : Type :=
| Done (a : A)
| Failed (e : app_exn).
Arguments Done {A} a.
Arguments Failed {A} e.

Definition and_then {A B} (o : outcome A) (k : A -> outcome B)
  : outcome B :=
  match o with
  | Done a => k a
  | Failed e => Failed e
  end.

(** [d[key]] in a handler. *)
Definition item (d : message) (key : string) : outcome value :=
  match dict_get d (PyText.text key) with
  | Some v => Done v
  | None => Failed (KeyError (PyText.text key))
  end.

(** The receiver of a [str] method call. *)
Definition as_str (v : value) : outcome str :=
  match v with
  | VStr s => Done s
  | _ => Failed NotAString
  end.

(* ------------------------------------------------------------------ *)
(** ** [main.py]: [extract_user_info] *)
(* ------------------------------------------------------------------ *)

Module Keywords.

Definition name : list str :=
  map PyText.text
      ["שם פרטי"; "שם משפחה"; "שם מלא";
       "first name"; "last name"; "full name"]%string.

Definition id : list str :=
  map PyText.text
      ["תעודת זהות"; "ת.ז."; "מספר זהות";
       "id number"; "identification"]%string.

Definition gender : list str :=
  map PyText.text ["מגדר"; "מין"; "gender"; "sex"]%string.

Definition male : list str :=
  map PyText.text ["זכר"; "גבר"; "male"; "man"]%string.

Definition female : list str :=
  map PyText.text ["נקבה"; "אישה"; "female"; "woman"]%string.

Definition age : list str :=
  map PyText.text
      ["גיל"; "בן כמה"; "בת כמה"; "age"; "how old"]%string.

Definition hmo : list str :=
  map PyText.text ["קופת חולים"; "hmo"; "health fund"]%string.

Definition card : list str :=
  map PyText.text
      ["מספר כרטיס"; "מספר קופת חולים"; "card number"]%string.

Definition tier : list str :=
  map PyText.text
      ["רמת חברות"; "סוג ביטוח"; "רמת ביטוח"; "מסלול";
       "tier"; "membership level"; "insurance level"]%string.

Definition maccabi : str := PyText.text "מכבי".
Definition clalit : str := PyText.text "כללית".
Definition meuchedet : str := PyText.text "מאוחדת".
Definition leumit : str := PyText.text "לאומית".
Definition gold : str := PyText.text "זהב".
Definition silver : str := PyText.text "כסף".
Definition bronze : str := PyText.text "ארד".

End Keywords.

Section ExtractUserInfo.

(** Three built-ins whose tables are those of the Unicode database:
    [str.lower], [str.isdigit] on one character, and [int] on a string
    ([None] when it raises). *)
Variable lower : str -> str.
Variable isdigit : PyStr.char -> bool.
Variable int_of : str -> option Z.

(** Lines 113-120. *)
Definition hmo_answer (response_lower : str) (u : UserInfo) : UserInfo :=
  if PyText.contains Keywords.maccabi response_lower
     || PyText.contains (PyText.text "maccabi") response_lower
  then set_hmo_name u Keywords.maccabi
  else if PyText.contains Keywords.clalit response_lower
          || PyText.contains (PyText.text "clalit") response_lower
  then set_hmo_name u Keywords.clalit
  else if PyText.contains Keywords.meuchedet response_lower
          || PyText.contains (PyText.text "meuchedet") response_lower
  then set_hmo_name u Keywords.meuchedet
  else if PyText.contains Keywords.leumit response_lower
          || PyText.contains (PyText.text "leumit") response_lower
  then set_hmo_name u Keywords.leumit
  else u.

(** Lines 131-136. *)
Definition tier_answer (response_lower : str) (u : UserInfo) : UserInfo :=
  if PyText.contains Keywords.gold response_lower
     || PyText.contains (PyText.text "gold") response_lower
  then set_membership_tier u Keywords.gold
  else if PyText.contains Keywords.silver response_lower
          || PyText.contains (PyText.text "silver") response_lower
  then set_membership_tier u Keywords.silver
  else if PyText.contains Keywords.bronze response_lower
          || PyText.contains (PyText.text "bronze") response_lower
  then set_membership_tier u Keywords.bronze
  else u.

(** Lines 76-136: what one question of the assistant and the answer that
    follows it change; [assistant_msg] is lowercased, [user_response]
    stripped and not empty. *)
Definition extract_answer (assistant_msg user_response : str)
  (u : UserInfo) : UserInfo :=
  if PyText.any_in Keywords.name assistant_msg
     && negb (PyStr.truthy (first_name u) && PyStr.truthy (last_name u))
  then
    match PyText.split user_response with
    | first :: second :: more =>
        set_last_name (set_first_name u first)
                      (PyText.join (PyText.text " ") (second :: more))
    | [first] => set_first_name u first
    | [] => u
    end
  else if PyText.any_in Keywords.id assistant_msg
          && negb (PyStr.truthy (id_number u))
  then
    let digits := filter isdigit user_response in
    if (9 <=? length digits)%nat then set_id_number u (firstn 9 digits)
    else u
  else if PyText.any_in Keywords.gender assistant_msg
          && negb (PyStr.truthy (gender u))
  then
    let response_lower := lower user_response in
    if PyText.any_in Keywords.male response_lower
    then set_gender u (PyText.text "Male")
    else if PyText.any_in Keywords.female response_lower
    then set_gender u (PyText.text "Female")
    else u
  else if PyText.any_in Keywords.age assistant_msg
          && (age u =? 0)%Z
  then
    let digits := filter isdigit user_response in
    if PyStr.truthy digits then
      match int_of digits with
      | Some a => if ((0 <=? a) && (a <=? 120))%Z then set_age u a else u
      | None => u
      end
    else u
  else if PyText.any_in Keywords.hmo assistant_msg
          && negb (PyStr.truthy (hmo_name u))
  then hmo_answer (lower user_response) u
  else if PyText.any_in Keywords.card assistant_msg
          && negb (PyStr.truthy (hmo_card_number u))
  then
    let digits := filter isdigit user_response in
    if (8 <=? length digits)%nat then set_hmo_card_number u digits
    else u
  else if PyText.any_in Keywords.tier assistant_msg
          && negb (PyStr.truthy (membership_tier u))
  then tier_answer (lower user_response) u
  else u.

(** Lines 67-136: the loop over the conversation; [conversation] is what
    remains from position [i] on, so that its second element is
    [conversation[i+1]]. *)
Fixpoint extract_loop (conversation : list message) (u : UserInfo)
  : outcome UserInfo :=
  match conversation with
  | [] => Done u
  | msg :: rest =>
      and_then (item msg "role") (fun role =>
      if is_str role (PyText.text "assistant") then
        match rest with
        | [] => extract_loop rest u
        | next :: _ =>
            and_then (item next "role") (fun next_role =>
            if is_str next_role (PyText.text "user") then
              and_then (item msg "content") (fun content =>
              and_then (as_str content) (fun content_str =>
              let assistant_msg := lower content_str in
              and_then (item next "content") (fun next_content =>
              and_then (as_str next_content) (fun next_str =>
              let user_response := PyStr.strip next_str in
              if PyStr.truthy user_response
              then extract_loop rest
                     (extract_answer assistant_msg user_response u)
              else extract_loop rest u))))
            else extract_loop rest u)
        end
      else extract_loop rest u)
  end.

(** [extract_user_info(response_text, current_user_info)]; the second
    argument is always a [model_dump()], so the key
    ["conversation_history"] is present. *)
Definition extract_user_info (response_text : option str)
  (current_user_info : UserInfo) : outcome UserInfo :=
  match conversation_history current_user_info with
  | [] => Done current_user_info
  | _ :: _ =>
      extract_loop (conversation_history current_user_info)
                   current_user_info
  end.

End ExtractUserInfo.

(* ------------------------------------------------------------------ *)
(** ** [openai_integration.py] and the endpoints of [main.py] *)
(* ------------------------------------------------------------------ *)

(** One entry of the [messages] argument of the chat call:
    [{"role": r, "content": [{"type": "text", "text": t}]}]. *)
Record chat_message : Type := {
  chat_role : str;
  chat_text : value
}.

(** The retrieval world, and the chat requests made so far (oldest
    first).  One request is followed from its arrival to its answer;
    requests served at the same time are not modelled. *)
Record Session : Type := {
  world : World;
  chat_log : list (list chat_message)
}.

Definition App (A : Type) : Type := Session -> outcome A * Session.

Definition done {A} (a : A) : App A := fun s => (Done a, s).

Definition fail {A} (e : app_exn) : App A := fun s => (Failed e, s).

Definition app_bind {A B} (c : App A) (k : A -> App B) : App B :=
  fun s =>
    match c s with
    | (Done a, s') => k a s'
    | (Failed e, s') => (Failed e, s')
    end.

Definition of_outcome {A} (o : outcome A) : App A := fun s => (o, s).

(** A call into [vectorDB]. *)
Definition of_retrieval {A} (c : M A) : App A :=
  fun s =>
    match c (world s) with
    | (Ok a, w') => (Done a, {| world := w'; chat_log := chat_log s |})
    | (Raise e, w') =>
        (Failed (Retrieval e), {| world := w'; chat_log := chat_log s |})
    end.

(** Lines 108-111 of [openai_integration.py]; [i] is the index of the
    first document of [context]. *)
Fixpoint format_context_from (i : nat) (context : list document) : str :=
  match context with
  | [] => []
  | (doc_name, doc_content) :: rest =>
      PyText.text "Document " ++ PyText.of_nat (i + 1)
        ++ PyText.text " (" ++ doc_name ++ PyText.text "):"
        ++ [10%N] ++ doc_content ++ [10%N; 10%N]
        ++ format_context_from (S i) rest
  end.

Definition format_context (context : list document) : str :=
  format_context_from 0 context.

(** Lines 182-186: the entries of the history that are sent on. *)
Fixpoint forward_history (history : list message)
  : outcome (list chat_message) :=
  match history with
  | [] => Done []
  | msg :: rest =>
      and_then (item msg "role") (fun role =>
      if is_str role (PyText.text "user") then
        and_then (item msg "content") (fun content =>
        and_then (forward_history rest) (fun more =>
        Done ({| chat_role := PyText.text "user";
                 chat_text := content |} :: more)))
      else if is_str role (PyText.text "system") then
        and_then (item msg "content") (fun content =>
        and_then (forward_history rest) (fun more =>
        Done ({| chat_role := PyText.text "assistant";
                 chat_text := content |} :: more)))
      else forward_history rest)
  end.

Section Handlers.

Variable provider : nat -> str -> option Faiss.vec.

(** The chat completions endpoint: what the [n]-th call answers on the
    messages sent, as [choices[0].message.content] (a string or [None]);
    the outer [None] when the call raises. *)
Variable chat : nat -> list chat_message -> option (option str).

(** The two prompt templates, as functions of what is interpolated into
    them: the user information for the first (lines 51-98), the user
    information, the query and the formatted context for the second
    (lines 121-164; its [special_instruction] is read from the user
    information too).  Building them cannot raise. *)
Variable info_collection_prompt : UserInfo -> str.
Variable qna_prompt : UserInfo -> value -> str -> str.

Variable lower : str -> str.
Variable isdigit : PyStr.char -> bool.
Variable int_of : str -> option Z.

(** [get_knowledge_base(query)] for a query taken from a message: line
    137 of [vectorDB.py] on a value that need not be a string. *)
Definition get_knowledge_base_of (query : value) : M (list document) :=
  match query with
  | VStr q => get_knowledge_base provider (Some q)
  | _ =>
      if truthy query then raise AttributeError
      else get_knowledge_base provider None
  end.

(** Lines 189-198. *)
Definition chat_completion (messages : list chat_message)
  : App (option str) :=
  fun s =>
    let s' := {| world := world s;
                 chat_log := chat_log s ++ [messages] |} in
    match chat (length (chat_log s)) messages with
    | Some content => (Done content, s')
    | None => (Failed ChatError, s')
    end.

Definition get_openai_response (user_info : UserInfo) (phase : str)
  (query : value) : App (option str) :=
  app_bind
    (if PyStr.eqb phase (PyText.text "info_collection")
     then done (info_collection_prompt user_info)
     else if PyStr.eqb phase (PyText.text "qna")
     then app_bind (of_retrieval (get_knowledge_base_of query))
            (fun context =>
               done (qna_prompt user_info query (format_context context)))
     else fail (InvalidPhase phase))
    (fun prompt =>
  app_bind (of_outcome (forward_history (conversation_history user_info)))
    (fun forwarded =>
  chat_completion
    ({| chat_role := PyText.text "system"; chat_text := VStr prompt |}
       :: forwarded))).

(** What an endpoint answers: its body, or the HTTPException with status
    500 that the [except Exception] clause raises, here with the
    exception that caused it. *)
Inductive http (A : Type) : Type :=
| Http200 (body : A)
| Http500 (cause : app_exn).

Definition respond {A} (c : App A) : Session -> http A * Session :=
  fun s =>
    match c s with
    | (Done a, s') => (Http200 A a, s')
    | (Failed e, s') => (Http500 A e, s')
    end.

(** Line 196 of [main.py]. *)
Definition latest_content (history : list message) : outcome value :=
  match history with
  | [] => Done (VStr [])
  | first :: more => item (last more first) "content"
  end.

(** [POST /qa] *)
Definition qa (user_info : UserInfo)
  : Session -> http (option str) * Session :=
  respond
    (app_bind (of_outcome (latest_content (conversation_history user_info)))
       (fun query =>
          get_openai_response user_info (PyText.text "qna") query)).

(** [POST /collect_info] *)
Definition collect_info (user_info : UserInfo)
  : Session -> http (option str * UserInfo) * Session :=
  respond
    (app_bind
       (get_openai_response user_info (PyText.text "info_collection")
                            VNone)
       (fun response =>
     app_bind
       (of_outcome (extract_user_info lower isdigit int_of
                                      response user_info))
       (fun updated_info => done (response, updated_info)))).

End Handlers.

(* ------------------------------------------------------------------ *)
(** ** Notions used to state the properties of the handlers *)
(* ------------------------------------------------------------------ *)

(** [u'] leaves alone every field that is already filled in [u], and the
    conversation history. *)
Definition keeps_filled (u u' : UserInfo) : Prop :=
  (PyStr.truthy (first_name u) && PyStr.truthy (last_name u) = true ->
   first_name u' = first_name u /\ last_name u' = last_name u)
  /\ (PyStr.truthy (id_number u) = true -> id_number u' = id_number u)
  /\ (PyStr.truthy (gender u) = true -> gender u' = gender u)
  /\ (age u <> 0%Z -> age u' = age u)
  /\ (PyStr.truthy (hmo_name u) = true -> hmo_name u' = hmo_name u)
  /\ (PyStr.truthy (hmo_card_number u) = true ->
      hmo_card_number u' = hmo_card_number u)
  /\ (PyStr.truthy (membership_tier u) = true ->
      membership_tier u' = membership_tier u)
  /\ conversation_history u' = conversation_history u.

(** A word as [split] yields them: not empty, without whitespace. *)
Definition is_word (s : str) : Prop :=
  s <> [] /\ forallb (fun c => negb (PyStr.isspace c)) s = true.

(** Every field of [u'] is the one of [u] or a value of the shape the
    extraction produces. *)
Definition extracted_from (isdigit : PyStr.char -> bool)
  (u u' : UserInfo) : Prop :=
  (first_name u' = first_name u \/ is_word (first_name u'))
  /\ (id_number u' = id_number u
      \/ (length (id_number u') = 9%nat
          /\ forallb isdigit (id_number u') = true))
  /\ (gender u' = gender u
      \/ gender u' = PyText.text "Male"
      \/ gender u' = PyText.text "Female")
  /\ (age u' = age u \/ (0 <= age u' <= 120)%Z)
  /\ (hmo_name u' = hmo_name u
      \/ In (hmo_name u')
            [Keywords.maccabi; Keywords.clalit;
             Keywords.meuchedet; Keywords.leumit])
  /\ (hmo_card_number u' = hmo_card_number u
      \/ ((8 <= length (hmo_card_number u'))%nat
          /\ forallb isdigit (hmo_card_number u') = true))
  /\ (membership_tier u' = membership_tier u
      \/ In (membership_tier u')
            [Keywords.gold; Keywords.silver; Keywords.bronze]).

(** [u] with another conversation history. *)
Definition with_history (u : UserInfo) (history : list message)
  : UserInfo :=
  {| first_name := first_name u; last_name := last_name u;
     id_number := id_number u; gender := gender u; age := age u;
     hmo_name := hmo_name u; hmo_card_number := hmo_card_number u;
     membership_tier := membership_tier u;
     conversation_history := history |}.

(** The answer of a user, as the gender and HMO branches read it. *)
Definition answer_of (lower : str -> str) (m : message) (a : str)
  : Prop :=
  exists c, dict_get m (PyText.text "content") = Some (VStr c)
            /\ a = lower (PyStr.strip c).

(* ------------------------------------------------------------------ *)
(** ** Fixtures for the handlers *)
(* ------------------------------------------------------------------ *)

Module Desk.

(** The three built-ins on ASCII text. *)
Definition lower (s : str) : str :=
  map (fun c => if ((65 <=? c) && (c <=? 90))%N then (c + 32)%N else c) s.

Definition isdigit (c : PyStr.char) : bool :=
  ((48 <=? c) && (c <=? 57))%N.

Definition int_of (s : str) : option Z :=
  Some (fold_left (fun acc c => (acc * 10 + Z.of_N (c - 48))%Z) s 0%Z).

Definition says (role content : string) : message :=
  [(PyText.text "role", VStr (PyText.text role));
   (PyText.text "content", VStr (PyText.text content))].

Definition nobody : UserInfo :=
  {| first_name := []; last_name := []; id_number := []; gender := [];
     age := 0; hmo_name := []; hmo_card_number := [];
     membership_tier := []; conversation_history := [] |}.

(** A conversation as the frontend records it. *)
Definition interview : list message :=
  [says "assistant" "What is your full name?";
   says "user" " Dana Levi Cohen ";
   says "assistant" "What is your gender?";
   says "user" "Female";
   says "assistant" "Your ID number please";
   says "user" "it is 123-456-789-0";
   says "assistant" "How old are you?";
   says "user" "I am 34";
   says "assistant" "tier?";
   says "user" "Gold"].

Definition dana : UserInfo := with_history nobody interview.

(** An applicant whose gender is stated in Hebrew. *)
Definition rina : UserInfo :=
  with_history nobody
    [says "assistant" "gender?"; says "user" "נקבה"].

(** An applicant already known, asked again. *)
Definition known : UserInfo :=
  {| first_name := PyText.text "Dana";
     last_name := PyText.text "Levi";
     id_number := PyText.text "123456789";
     gender := PyText.text "Female";
     age := 34;
     hmo_name := Keywords.clalit;
     hmo_card_number := PyText.text "12345678";
     membership_tier := Keywords.gold;
     conversation_history := interview |}.

(** An applicant of whom only the ID number is known. *)
Definition half_known : UserInfo :=
  set_id_number dana (PyText.text "987654321").

(** What the extraction makes of [u], when it returns. *)
Definition extracted (u : UserInfo) : UserInfo :=
  match extract_user_info lower isdigit int_of None u with
  | Done u' => u'
  | Failed _ => u
  end.

Definition chat (n : nat) (messages : list chat_message)
  : option (option str) :=
  Some (Some (PyText.text "How can I help?")).

Definition info_collection_prompt (u : UserInfo) : str :=
  PyText.text "collect: " ++ first_name u.

Definition qna_prompt (u : UserInfo) (query : value) (context : str)
  : str :=
  PyText.text "answer from: " ++ context.

(** A session on the index built over [src], before any chat call. *)
Definition opened (src : source) : Session :=
  {| world := Fixture.imported src; chat_log := [] |}.

Definition asks (question : str) : UserInfo :=
  with_history nobody
    [says "assistant" "How can I help?";
     [(PyText.text "role", VStr (PyText.text "user"));
      (PyText.text "content", VStr question)]].

End Desk.

(* ------------------------------------------------------------------ *)
(** ** Facts about Python strings *)
(* ------------------------------------------------------------------ *)

Module PyStrFacts.
Import PyStr.

Lemma eqb_eq (s t : str) : eqb s t = true <-> s = t.
Proof.
  revert t; induction s as [|c s IH]; intros [|c' t]; simpl;
    try (split; congruence).
  rewrite andb_true_iff, N.eqb_eq, IH. split.
  - intros [-> ->]; reflexivity.
  - intros E; injection E; auto.
Qed.

Lemma lstrip_nil_iff (s : str) : lstrip s = [] <-> blank s = true.
Proof.
  induction s as [|c s IH]; simpl.
  - tauto.
  - destruct (isspace c); simpl.
    + exact IH.
    + split; discriminate.
Qed.

Lemma lstrip_blank (s : str) : blank s = true -> lstrip s = [].
Proof. apply lstrip_nil_iff. Qed.

Lemma blank_app (s t : str) : blank (s ++ t) = blank s && blank t.
Proof. apply forallb_app. Qed.

Lemma blank_rev (s : str) : blank (rev s) = blank s.
Proof.
  induction s as [|c s IH]; simpl; [reflexivity|].
  rewrite blank_app, IH; simpl. rewrite andb_true_r. apply andb_comm.
Qed.

(** What [lstrip] removes is blank, and what it keeps is a suffix. *)
Lemma lstrip_split (s : str) :
  exists p, s = p ++ lstrip s /\ blank p = true.
Proof.
  induction s as [|c s [p [E B]]]; simpl.
  - exists []; auto.
  - destruct (isspace c) eqn:Hc.
    + exists (c :: p); simpl. rewrite Hc, B. split; [congruence|reflexivity].
    + exists []; auto.
Qed.

Lemma rstrip_nil_iff (s : str) : rstrip s = [] <-> blank s = true.
Proof.
  unfold rstrip. rewrite <- (blank_rev s), <- lstrip_nil_iff.
  split; intros H.
  - apply (f_equal (@rev char)) in H. rewrite rev_involutive in H. exact H.
  - rewrite H; reflexivity.
Qed.

(** [s.strip()] is the empty string exactly when [s] consists of
    whitespace only. *)
Lemma strip_nil_iff (s : str) : strip s = [] <-> blank s = true.
Proof.
  unfold strip. rewrite rstrip_nil_iff.
  destruct (lstrip_split s) as [p [E B]].
  split; intros H.
  - rewrite E, blank_app, B, H; reflexivity.
  - rewrite E, blank_app, B in H. exact H.
Qed.

End PyStrFacts.

(* ------------------------------------------------------------------ *)
(** ** Computations that leave the module's globals alone *)
(* ------------------------------------------------------------------ *)

Create HintDb keeps discriminated.

Lemma keeps_ret {A} (a : A) : keeps_globals (ret a).
Proof. intros w; reflexivity. Qed.

Lemma keeps_raise {A} (e : exn) : keeps_globals (@raise A e).
Proof. intros w; reflexivity. Qed.

Lemma keeps_bind {A B} (c : M A) (k : A -> M B) :
  keeps_globals c -> (forall a, keeps_globals (k a)) ->
  keeps_globals (bind c k).
Proof.
  intros Hc Hk w. unfold bind.
  specialize (Hc w). destruct (c w) as [[a|e] w1]; simpl in *.
  - rewrite Hk. exact Hc.
  - exact Hc.
Qed.

Lemma keeps_get_globals : keeps_globals get_globals.
Proof. intros w; reflexivity. Qed.

Lemma keeps_emit (e : event) : keeps_globals (emit e).
Proof. intros w; reflexivity. Qed.

Lemma keeps_lift_option {A} (o : option A) (e : exn) :
  keeps_globals (lift_option o e).
Proof. destruct o; intros w; reflexivity. Qed.

#[export] Hint Resolve keeps_ret keeps_raise keeps_get_globals keeps_emit
  keeps_lift_option : keeps.

Ltac keeps_step :=
  apply keeps_bind; [ try solve [auto with keeps] | intros ? ].

Section ReadOnly.

Variable provider : nat -> str -> option Faiss.vec.

Lemma keeps_generate_embeddings (text : str) :
  keeps_globals (generate_embeddings provider text).
Proof.
  intros w. unfold generate_embeddings.
  apply (keeps_bind (emit (EmbedCall text))); auto with keeps.
Qed.

Lemma keeps_closest_loop kb indices acc :
  keeps_globals (closest_loop kb indices acc).
Proof.
  revert acc; induction indices as [|idx rest IH]; intros acc; simpl.
  - auto with keeps.
  - keeps_step. destruct (_ <? _)%Z; [|apply IH].
    keeps_step. apply IH.
Qed.

Lemma keeps_retrieve (query : str) :
  keeps_globals (retrieve provider query).
Proof.
  unfold retrieve.
  keeps_step; [apply keeps_generate_embeddings|].
  do 4 keeps_step.
  keeps_step; [apply keeps_closest_loop|].
  match goal with |- keeps_globals (match ?l with _ => _ end) =>
    destruct l end; auto with keeps.
Qed.

Lemma keeps_get_knowledge_base (query : option str) :
  keeps_globals (get_knowledge_base provider query).
Proof.
  destruct query as [q|]; simpl; [|auto with keeps].
  destruct (degenerate q); [auto with keeps | apply keeps_retrieve].
Qed.

(** Line 137 fires exactly on the empty and the all-whitespace
    strings. *)
Lemma degenerate_iff_blank (q : str) :
  degenerate q = true <-> PyStr.blank q = true.
Proof.
  unfold degenerate. rewrite orb_true_iff, PyStrFacts.eqb_eq,
    PyStrFacts.strip_nil_iff.
  split.
  - intros [H|H]; [|exact H]. destruct q; [reflexivity|discriminate].
  - auto.
Qed.

End ReadOnly.

(* ------------------------------------------------------------------ *)
(** ** Running monadic code: inversion lemmas *)
(* ------------------------------------------------------------------ *)

Lemma bind_ok {A B} (c : M A) (k : A -> M B) w b w' :
  bind c k w = (Ok b, w') ->
  exists a w1, c w = (Ok a, w1) /\ k a w1 = (Ok b, w').
Proof.
  unfold bind. destruct (c w) as [[a|e] w1]; intros H.
  - exists a, w1; auto.
  - discriminate.
Qed.

Lemma lift_option_ok {A} (o : option A) e w a w' :
  lift_option o e w = (Ok a, w') -> o = Some a /\ w' = w.
Proof.
  destruct o; simpl; unfold ret, raise; intros H; inversion H; auto.
Qed.

Lemma ret_ok {A} (a b : A) w w' : ret a w = (Ok b, w') -> b = a /\ w' = w.
Proof. unfold ret; intros H; inversion H; auto. Qed.

Tactic Notation "inv_bind" hyp(H) "as" ident(a) ident(w) ident(E) :=
  apply bind_ok in H; destruct H as (a & w & E & H).

Tactic Notation "inv_lift" hyp(H) "as" ident(E) :=
  apply lift_option_ok in H; destruct H as [E ->].

Ltac inv_ret H := apply ret_ok in H; destruct H as [-> ->].

Lemma embed_calls_app (t u : list event) :
  embed_calls (t ++ u) = (embed_calls t + embed_calls u)%nat.
Proof. unfold embed_calls. rewrite filter_app, length_app. reflexivity. Qed.

Lemma embed_calls_snoc (t : list event) (text : str) :
  embed_calls (t ++ [EmbedCall text]) = S (embed_calls t).
Proof. rewrite embed_calls_app. unfold embed_calls; simpl. lia. Qed.

(* ------------------------------------------------------------------ *)
(** ** The build phase *)
(* ------------------------------------------------------------------ *)

Section Build.

Variable provider : nat -> str -> option Faiss.vec.

Lemma generate_embeddings_ok text w v w' :
  generate_embeddings provider text w = (Ok v, w') ->
  provider (embed_calls (trace w)) text = Some v
  /\ w' = {| globals := globals w; trace := trace w ++ [EmbedCall text] |}.
Proof.
  unfold generate_embeddings, bind, emit; simpl.
  intros H. apply lift_option_ok in H. exact H.
Qed.

Lemma generate_embeddings_fails text w :
  provider (embed_calls (trace w)) text = None ->
  generate_embeddings provider text w
  = (Raise ProviderError,
     {| globals := globals w; trace := trace w ++ [EmbedCall text] |}).
Proof.
  intros H. unfold generate_embeddings, bind, emit; simpl.
  rewrite H. reflexivity.
Qed.

(** The files are read in listing order and reading touches nothing. *)
Lemma read_documents_ok files : forall w docs w',
  read_documents files w = (Ok docs, w') ->
  w' = w
  /\ Forall2 (fun f doc => fst doc = fst f /\ snd f = Some (snd doc))
             files docs.
Proof.
  induction files as [|[name file] rest IH]; intros w docs w' H; simpl in H.
  - inv_ret H. auto.
  - inv_bind H as content w1 Ec. inv_lift Ec as Ef.
    inv_bind H as documents w2 Er.
    apply IH in Er as [-> F]. inv_ret H.
    split; [reflexivity|]. constructor; auto.
Qed.

Lemma embed_documents_ok docs : forall w embs w',
  embed_documents provider docs w = (Ok embs, w') ->
  length embs = length docs
  /\ (forall i doc, nth_error docs i = Some doc ->
        exists v, nth_error embs i = Some v
                  /\ provider (embed_calls (trace w) + i) (snd doc)
                     = Some v)
  /\ globals w' = after_embedding (globals w) embs.
Proof.
  induction docs as [|doc rest IH]; intros w embs w' H; simpl in H.
  - inv_ret H. repeat split.
    + intros [|i] d; discriminate.
    + unfold after_embedding. destruct (embedding_dimension _); reflexivity.
  - inv_bind H as v w1 Ev. apply generate_embeddings_ok in Ev as [P ->].
    inv_bind H as g w2 Eg. unfold get_globals in Eg.
    inversion Eg; subst; clear Eg. simpl in H.
    inv_bind H as u w3 Es. inv_bind H as rest_embs w4 Er. inv_ret H.
    apply IH in Er as (L & N & G).
    assert (T : embed_calls (trace w3) = S (embed_calls (trace w))).
    { destruct (embedding_dimension (globals w)).
      - apply ret_ok in Es as [_ ->]. simpl.
        apply embed_calls_snoc.
      - unfold set_globals in Es. inversion Es; subst; simpl.
        apply embed_calls_snoc. }
    repeat split.
    + simpl; congruence.
    + intros [|i] d Hd; simpl in Hd.
      * inversion Hd; subst. exists v. rewrite Nat.add_0_r. auto.
      * destruct (N i d Hd) as (v' & Hv & Pv). exists v'.
        split; [exact Hv|].
        rewrite T in Pv. rewrite <- Pv. f_equal. lia.
    + rewrite G. unfold after_embedding; simpl.
      destruct (embedding_dimension (globals w)) eqn:D.
      * apply ret_ok in Es as [_ ->]. simpl. rewrite D.
        destruct rest_embs; reflexivity.
      * unfold set_globals in Es. inversion Es; subst; simpl.
        destruct rest_embs; reflexivity.
Qed.

Lemma vstack_ok rows x :
  Faiss.vstack rows = Some x ->
  x = rows /\ rows <> []
  /\ Forall (fun r => length r = Faiss.width rows) rows.
Proof.
  unfold Faiss.vstack. destruct rows as [|r rest]; [discriminate|].
  destruct (forallb _ _) eqn:F; [|discriminate].
  intros H; inversion H; subst. repeat split; [discriminate|].
  rewrite forallb_forall in F. apply Forall_forall.
  intros r' Hr. apply F in Hr. apply Nat.eqb_eq in Hr. exact Hr.
Qed.

Lemma add_ok ix x ix' :
  Faiss.add ix x = Some ix' ->
  Faiss.width x = Faiss.d ix
  /\ ix' = {| Faiss.d := Faiss.d ix; Faiss.xb := Faiss.xb ix ++ x |}.
Proof.
  unfold Faiss.add. destruct (Nat.eqb_spec (Faiss.width x) (Faiss.d ix));
    [|discriminate].
  intros H; inversion H; auto.
Qed.

Variable phase2_data : source.

Lemma load_knowledge_base_ok w docs w' :
  embedding_dimension (globals w) = None ->
  load_knowledge_base provider phase2_data w = (Ok docs, w') ->
  built provider (embed_calls (trace w)) docs (globals w')
  /\ knowledge_base_documents (globals w')
     = knowledge_base_documents (globals w)
  /\ exists entries,
       phase2_data = Directory entries
       /\ Forall2 (fun f doc => fst doc = fst f /\ snd f = Some (snd doc))
                  (filter is_html entries) docs.
Proof.
  intros Fresh H. unfold load_knowledge_base in H.
  destruct phase2_data as [| |entries]; try discriminate.
  destruct (filter is_html entries) as [|f fs] eqn:Hf; [discriminate|].
  inv_bind H as documents w1 Er. apply read_documents_ok in Er as [-> F].
  inv_bind H as embeddings w2 Ee.
  pose proof (embed_documents_ok _ _ _ _ Ee) as (L & N & G).
  inv_bind H as u w3 Ea. inv_ret H.
  unfold add_to_index in Ea.
  inv_bind Ea as g w4 Eg. unfold get_globals in Eg.
  inversion Eg; subst; clear Eg.
  inv_bind Ea as ix w5 Ei. inv_lift Ei as Hix.
  inv_bind Ea as x w6 Ex. inv_lift Ex as Hx.
  inv_bind Ea as ix' w7 Ex'. inv_lift Ex' as Hadd.
  unfold set_globals in Ea. inversion Ea; subst; clear Ea. simpl.
  apply vstack_ok in Hx as (-> & Hne & Hw).
  apply add_ok in Hadd as (Hd & ->).
  inversion F as [|f' d0 fs' ds Hfd Hrest]; subst.
  destruct embeddings as [|v0 vs]; [congruence|].
  unfold after_embedding in G. rewrite Fresh in G.
  rewrite G in Hix |- *; simpl in *. inversion Hix; subst; clear Hix.
  simpl. split; [|split].
  - exists (length v0), (v0 :: vs). repeat split; auto.
    discriminate.
  - reflexivity.
  - exists entries. split; [reflexivity|]. rewrite Hf. exact F.
Qed.

Lemma module_init_ok w w' :
  module_init provider phase2_data w = (Ok tt, w') ->
  exists docs,
    knowledge_base_documents (globals w') = Some docs
    /\ built provider (embed_calls (trace w)) docs (globals w')
    /\ exists entries,
         phase2_data = Directory entries
         /\ Forall2 (fun f doc => fst doc = fst f
                                  /\ snd f = Some (snd doc))
                    (filter is_html entries) docs.
Proof.
  intros H. unfold module_init in H.
  inv_bind H as u w1 Es. unfold set_globals in Es.
  inversion Es; subst; clear Es.
  inv_bind H as docs w2 El.
  apply load_knowledge_base_ok in El as (B & K & S); [|reflexivity].
  inv_bind H as g w3 Eg. unfold get_globals in Eg.
  inversion Eg; subst; clear Eg.
  unfold set_globals in H. inversion H; subst; clear H. simpl in *.
  exists docs. split; [reflexivity|]. split; [|exact S].
  destruct B as (D & embs & B1 & B2 & B3). exists D, embs. simpl. auto.
Qed.

End Build.

(* ------------------------------------------------------------------ *)
(** ** What [search] returns *)
(* ------------------------------------------------------------------ *)

Module FaissFacts.
Import Faiss.

Lemma candidates_from_labels q vs : forall pos,
  Forall (fun c => (pos <= snd c < pos + Z.of_nat (length vs))%Z)
         (candidates_from pos q vs).
Proof.
  induction vs as [|v vs IH]; intros pos; simpl; constructor.
  - simpl; lia.
  - eapply Forall_impl; [|apply (IH (pos + 1)%Z)].
    simpl; intros c Hc; lia.
Qed.

Lemma candidates_from_length q vs pos :
  length (candidates_from pos q vs) = length vs.
Proof. revert pos; induction vs; intros; simpl; auto. Qed.

Lemma insert_Forall (P : candidate -> Prop) c l :
  P c -> Forall P l -> Forall P (insert c l).
Proof.
  intros Hc; induction 1 as [|c' l' Hc' Hl IH]; simpl.
  - auto.
  - destruct (_ <=? _)%Z; auto.
Qed.

Lemma insert_length c l : length (insert c l) = S (length l).
Proof.
  induction l as [|c' l IH]; simpl; [reflexivity|].
  destruct (_ <=? _)%Z; simpl; auto.
Qed.

Lemma sort_Forall (P : candidate -> Prop) l :
  Forall P l -> Forall P (fold_right insert [] l).
Proof. induction 1; simpl; auto using insert_Forall. Qed.

Lemma sort_length l : length (fold_right insert [] l) = length l.
Proof.
  induction l as [|c l IH]; simpl; [reflexivity|].
  rewrite insert_length; auto.
Qed.

Lemma firstn_Forall {A} (P : A -> Prop) (l : list A) : forall k,
  Forall P l -> Forall P (firstn k l).
Proof.
  induction l as [|a l IH]; intros [|k] H; simpl; auto.
  inversion H; subst. constructor; auto.
Qed.

Lemma ranked_labels ix q :
  Forall (fun c => (0 <= snd c < Z.of_nat (ntotal ix))%Z) (ranked ix q).
Proof.
  unfold ranked, ntotal. apply sort_Forall.
  apply (candidates_from_labels q (xb ix) 0).
Qed.

Lemma ranked_length ix q : length (ranked ix q) = ntotal ix.
Proof.
  unfold ranked. rewrite sort_length. apply candidates_from_length.
Qed.

(** [search] answers exactly [k] labels, each a position of the index
    or [-1]. *)
Lemma search_labels ix q k ds labels :
  search ix q k = Some (ds, labels) ->
  length labels = k
  /\ Forall (fun l => (-1 <= l < Z.of_nat (ntotal ix))%Z) labels.
Proof.
  unfold search. destruct (_ =? _)%nat; [|discriminate].
  intros H; inversion H; subst; clear H. split.
  - rewrite length_app, length_map, repeat_length.
    pose proof (firstn_le_length k (ranked ix q)) as Hk.
    unfold candidate in *. lia.
  - apply Forall_app. split.
    + apply Forall_map.
      eapply Forall_impl;
        [|apply firstn_Forall; apply (ranked_labels ix q)].
      simpl; intros c Hc; lia.
    + apply Forall_forall. intros l Hl. apply repeat_spec in Hl. lia.
Qed.

Lemma insert_HdRel a c l :
  by_distance a c -> HdRel by_distance a l ->
  HdRel by_distance a (insert c l).
Proof.
  intros Hac Hl. destruct l as [|c' l]; simpl.
  - constructor; exact Hac.
  - destruct (_ <=? _)%Z; constructor; auto.
    inversion Hl; assumption.
Qed.

Lemma insert_sorted c l :
  Sorted by_distance l -> Sorted by_distance (insert c l).
Proof.
  induction 1 as [|c' l Hs IH Hh]; simpl.
  - repeat constructor.
  - destruct (Z.leb_spec (fst c) (fst c')) as [Hle|Hgt].
    + constructor; [constructor; assumption|].
      constructor; exact Hle.
    + constructor; [exact IH|].
      apply insert_HdRel; [unfold by_distance; lia | exact Hh].
Qed.

Lemma ranked_sorted ix q : Sorted by_distance (ranked ix q).
Proof.
  unfold ranked.
  induction (candidates_from 0 q (xb ix)) as [|c l IH]; simpl.
  - constructor.
  - apply insert_sorted; exact IH.
Qed.

Lemma firstn_sorted (l : list candidate) : forall k,
  Sorted by_distance l -> Sorted by_distance (firstn k l).
Proof.
  induction l as [|c l IH]; intros [|k] H; simpl; try constructor.
  - apply IH. inversion H; assumption.
  - inversion H as [|? ? Hs Hh]; subst.
    destruct l as [|c' l]; destruct k; simpl; constructor.
    inversion Hh; assumption.
Qed.

Lemma candidates_from_stored q vs : forall pos,
  Forall (fun c => (pos <= snd c)%Z
                   /\ exists v,
                        nth_error vs (Z.to_nat (snd c - pos)) = Some v
                        /\ fst c = L2sqr q v)
         (candidates_from pos q vs).
Proof.
  induction vs as [|v vs IH]; intros pos; simpl; constructor.
  - simpl. split; [lia|]. exists v. rewrite Z.sub_diag. auto.
  - eapply Forall_impl; [|apply (IH (pos + 1)%Z)].
    simpl; intros c (Hc & v' & Hn & Hd). split; [lia|].
    exists v'. split; [|exact Hd].
    replace (Z.to_nat (snd c - pos))
      with (S (Z.to_nat (snd c - (pos + 1)))) by lia.
    exact Hn.
Qed.

Lemma ranked_stored ix q : Forall (stored_at (xb ix) q) (ranked ix q).
Proof.
  unfold ranked. apply sort_Forall.
  eapply Forall_impl; [|apply (candidates_from_stored q (xb ix) 0)].
  simpl; intros c (Hc & v & Hn & Hd). split; [exact Hc|].
  exists v. rewrite Z.sub_0_r in Hn. auto.
Qed.

(** When the index holds at least [k] vectors, [search] answers [k]
    positions of the index, by ascending distance to the query. *)
Lemma search_ranked ix q k ds labels :
  search ix q k = Some (ds, labels) ->
  (k <= ntotal ix)%nat ->
  exists best,
    labels = map snd best
    /\ ds = map (fun c => Some (fst c)) best
    /\ length best = k
    /\ Sorted by_distance best
    /\ Forall (stored_at (xb ix) q) best.
Proof.
  unfold search. destruct (_ =? _)%nat; [|discriminate].
  intros H Hk; inversion H; subst; clear H.
  assert (L : length (firstn k (ranked ix q)) = k).
  { rewrite length_firstn, ranked_length. lia. }
  exists (firstn k (ranked ix q)).
  rewrite L, Nat.sub_diag; simpl. rewrite !app_nil_r.
  repeat split; auto.
  - apply firstn_sorted, ranked_sorted.
  - apply firstn_Forall, ranked_stored.
Qed.

Lemma search_defined ix q k :
  length q = d ix -> exists ds labels, search ix q k = Some (ds, labels).
Proof.
  intros H. unfold search. rewrite H, Nat.eqb_refl. eauto.
Qed.

End FaissFacts.

(* ------------------------------------------------------------------ *)
(** ** The query phase *)
(* ------------------------------------------------------------------ *)

Lemma py_getitem_defined {A} (l : list A) (i : Z) :
  (- Z.of_nat (length l) <= i < Z.of_nat (length l))%Z ->
  exists a, py_getitem l i = Some a.
Proof.
  intros H. unfold py_getitem.
  destruct (Z.leb_spec 0 i).
  - destruct (nth_error l (Z.to_nat i)) eqn:E; [eauto|].
    apply nth_error_None in E. lia.
  - destruct (Z.leb_spec (- Z.of_nat (length l)) i); [|lia].
    destruct (nth_error l (Z.to_nat (Z.of_nat (length l) + i))) eqn:E;
      [eauto|].
    apply nth_error_None in E. lia.
Qed.

(** [l[-1]] is the last element. *)
Lemma py_getitem_minus_one {A} (l : list A) (a : A) :
  py_getitem (l ++ [a]) (-1) = Some a.
Proof.
  unfold py_getitem; simpl.
  rewrite length_app; simpl.
  destruct (Z.leb_spec (- Z.of_nat (length l + 1)) (-1)); [|lia].
  replace (Z.to_nat (Z.of_nat (length l + 1) + -1)) with (length l) by lia.
  rewrite nth_error_app2, Nat.sub_diag by lia. reflexivity.
Qed.

Lemma picked_length_in_range docs idx :
  (- Z.of_nat (length docs) <= idx < Z.of_nat (length docs))%Z ->
  length (picked docs idx) = 1%nat.
Proof.
  intros H. unfold picked.
  destruct (Z.ltb_spec idx (Z.of_nat (length docs))); [|lia].
  destruct (py_getitem_defined docs idx H) as [a ->]. reflexivity.
Qed.

Lemma picked_high docs idx :
  (Z.of_nat (length docs) <= idx)%Z -> picked docs idx = [].
Proof.
  intros H. unfold picked.
  destruct (Z.ltb_spec idx (Z.of_nat (length docs))); [lia|reflexivity].
Qed.

(** The loop, as long as no position lies below [-len(docs)]: the world
    is untouched and the picks are appended in the order of the
    positions. *)
Lemma closest_loop_spec docs indices : forall acc w,
  Forall (fun idx => (- Z.of_nat (length docs) <= idx)%Z) indices ->
  closest_loop (Some docs) indices acc w
  = (Ok (acc ++ flat_map (picked docs) indices), w).
Proof.
  induction indices as [|idx rest IH]; intros acc w H; simpl.
  - rewrite app_nil_r. reflexivity.
  - inversion H as [|? ? Hidx Hrest]; subst.
    unfold bind at 1; simpl. unfold picked at 1.
    destruct (Z.ltb_spec idx (Z.of_nat (length docs))).
    + destruct (py_getitem_defined docs idx) as [doc Hd]; [lia|].
      rewrite Hd. unfold bind; simpl.
      rewrite IH by assumption. rewrite <- app_assoc. reflexivity.
    + rewrite IH by assumption. reflexivity.
Qed.

(** A position below [-len(docs)] makes the loop raise. *)
Lemma closest_loop_index_error docs idx rest acc w :
  (idx < - Z.of_nat (length docs))%Z ->
  closest_loop (Some docs) (idx :: rest) acc w = (Raise IndexError, w).
Proof.
  intros H. simpl. unfold bind; simpl.
  destruct (Z.ltb_spec idx (Z.of_nat (length docs))); [|lia].
  unfold py_getitem.
  destruct (Z.leb_spec 0 idx); [lia|].
  destruct (Z.leb_spec (- Z.of_nat (length docs)) idx); [lia|].
  reflexivity.
Qed.

Lemma flat_map_picked_length docs labels :
  Forall (fun l => (- Z.of_nat (length docs) <= l < Z.of_nat (length docs))%Z)
         labels ->
  length (flat_map (picked docs) labels) = length labels.
Proof.
  induction 1 as [|l ls Hl Hls IH]; simpl; [reflexivity|].
  rewrite length_app, picked_length_in_range, IH by assumption.
  reflexivity.
Qed.

Lemma flat_map_picked_high docs labels :
  Forall (fun l => (Z.of_nat (length docs) <= l)%Z) labels ->
  flat_map (picked docs) labels = [].
Proof.
  induction 1 as [|l ls Hl Hls IH]; simpl; [reflexivity|].
  rewrite picked_high, IH by assumption. reflexivity.
Qed.

(** In-range positions are mapped to the documents at those
    positions, in order. *)
Lemma flat_map_picked_positions docs (best : list Faiss.candidate) :
  Forall (fun c => (0 <= snd c < Z.of_nat (length docs))%Z) best ->
  Forall2 (fun c doc => nth_error docs (Z.to_nat (snd c)) = Some doc)
          best (flat_map (picked docs) (map snd best)).
Proof.
  induction 1 as [|c cs Hc Hcs IH]; simpl; [constructor|].
  unfold picked at 1, py_getitem.
  destruct (Z.ltb_spec (snd c) (Z.of_nat (length docs))); [|lia].
  destruct (Z.leb_spec 0 (snd c)); [|lia].
  destruct (nth_error docs (Z.to_nat (snd c))) as [doc|] eqn:E.
  - simpl. constructor; assumption.
  - apply nth_error_None in E. lia.
Qed.

Section Query.

Variable provider : nat -> str -> option Faiss.vec.

Lemma generate_embeddings_returns text w v :
  provider (embed_calls (trace w)) text = Some v ->
  generate_embeddings provider text w
  = (Ok v, {| globals := globals w;
              trace := trace w ++ [EmbedCall text] |}).
Proof.
  intros H. unfold generate_embeddings, bind, emit; simpl.
  rewrite H. reflexivity.
Qed.

(** A failing embeddings call ends the query with that failure. *)
Lemma retrieve_provider_failure q w :
  provider (embed_calls (trace w)) q = None ->
  retrieve provider q w
  = (Raise ProviderError,
     {| globals := globals w; trace := trace w ++ [EmbedCall q] |}).
Proof.
  intros H. unfold retrieve, bind at 1.
  rewrite (generate_embeddings_fails provider q w H). reflexivity.
Qed.

(** The whole of lines 140-157 when the embedding arrives, the search
    accepts it and no position lies below [-len(docs)]. *)
Lemma retrieve_run q w v ix ds labels docs :
  provider (embed_calls (trace w)) q = Some v ->
  index (globals w) = Some ix ->
  Faiss.search ix v 4 = Some (ds, labels) ->
  knowledge_base_documents (globals w) = Some docs ->
  Forall (fun idx => (- Z.of_nat (length docs) <= idx)%Z) labels ->
  retrieve provider q w
  = (Ok (match flat_map (picked docs) labels with
         | [] => [not_found]
         | doc :: more => doc :: more
         end),
     {| globals := globals w;
        trace := trace w ++ [EmbedCall q; SearchCall v 4] |}).
Proof.
  intros Hp Hix Hs Hkb Hl. unfold retrieve, bind at 1.
  rewrite (generate_embeddings_returns q w v Hp).
  unfold bind at 1, get_globals; simpl.
  unfold bind at 1. rewrite Hix; simpl.
  unfold bind at 1, emit; simpl.
  unfold bind at 1. rewrite Hs; simpl.
  unfold bind at 1. rewrite Hkb.
  rewrite closest_loop_spec by assumption. simpl.
  rewrite <- app_assoc; simpl.
  destruct (flat_map (picked docs) labels); reflexivity.
Qed.

(** On the state a build leaves behind, a query whose embedding has
    the index's dimension returns, and returns four entries. *)
Lemma retrieve_on_built n0 docs q w v :
  built provider n0 docs (globals w) ->
  knowledge_base_documents (globals w) = Some docs ->
  provider (embed_calls (trace w)) q = Some v ->
  embedding_dimension (globals w) = Some (length v) ->
  exists r,
    retrieve provider q w
    = (Ok r, {| globals := globals w;
                trace := trace w ++ [EmbedCall q; SearchCall v 4] |})
    /\ length r = 4%nat.
Proof.
  intros (D & embs & HD & Hix & Hne & Hlen & _ & _) Hkb Hp Hdim.
  assert (D = length v) by congruence; subst D.
  destruct (FaissFacts.search_defined
              {| Faiss.d := length v; Faiss.xb := embs |} v 4 eq_refl)
    as (ds & labels & Hs).
  destruct (FaissFacts.search_labels _ _ _ _ _ Hs) as [Hk Hr].
  unfold Faiss.ntotal in Hr; simpl in Hr.
  assert (Hpos : (0 < length docs)%nat)
    by (destruct docs; [congruence | simpl; lia]).
  assert (Hin : Forall (fun l => (- Z.of_nat (length docs) <= l
                                  < Z.of_nat (length docs))%Z) labels).
  { eapply Forall_impl; [|exact Hr]. simpl; intros l Hl. lia. }
  rewrite (retrieve_run q w v _ ds labels docs Hp Hix Hs Hkb).
  - pose proof (flat_map_picked_length docs labels Hin) as Hfl.
    destruct (flat_map (picked docs) labels) as [|doc more] eqn:E.
    + simpl in Hfl. lia.
    + eexists; split; [reflexivity|]. congruence.
  - eapply Forall_impl; [|exact Hin]. simpl; intros l Hl. lia.
Qed.

(** On a built state holding at least four documents, the four
    entries returned are the documents at the positions the search
    ranked, and the distances from the query to the vectors stored at
    these positions ascend. *)
Lemma retrieve_ranked n0 docs q w v :
  built provider n0 docs (globals w) ->
  knowledge_base_documents (globals w) = Some docs ->
  provider (embed_calls (trace w)) q = Some v ->
  embedding_dimension (globals w) = Some (length v) ->
  (4 <= length docs)%nat ->
  exists ix best r,
    index (globals w) = Some ix
    /\ fst (retrieve provider q w) = Ok r
    /\ Forall2 (fun c doc => nth_error docs (Z.to_nat (snd c)) = Some doc)
               best r
    /\ Sorted by_distance best
    /\ Forall (stored_at (Faiss.xb ix) v) best.
Proof.
  intros (D & embs & HD & Hix & Hne & Hlen & _ & _) Hkb Hp Hdim Hfour.
  assert (D = length v) by congruence; subst D.
  set (ix := {| Faiss.d := length v; Faiss.xb := embs |}) in *.
  destruct (FaissFacts.search_defined ix v 4 eq_refl)
    as (ds & labels & Hs).
  destruct (FaissFacts.search_ranked ix v 4 ds labels Hs)
    as (best & Hl & _ & Hk & Hsorted & Hstored).
  { unfold Faiss.ntotal; simpl. lia. }
  assert (Hin : Forall (fun c => (0 <= snd c < Z.of_nat (length docs))%Z)
                       best).
  { rewrite Forall_forall in Hstored |- *. intros c Hc.
    destruct (Hstored c Hc) as (H0 & u & Hn & _).
    assert (Hlt : (Z.to_nat (snd c) < length embs)%nat)
      by (apply nth_error_Some; simpl in Hn; congruence).
    lia. }
  pose proof (flat_map_picked_positions docs best Hin) as Hpos.
  exists ix, best, (flat_map (picked docs) labels).
  rewrite (retrieve_run q w v ix ds labels docs Hp Hix Hs Hkb).
  - subst labels. repeat split; auto. simpl.
    destruct (flat_map (picked docs) (map snd best)) eqn:E;
      [|reflexivity].
    inversion Hpos; subst. discriminate.
  - subst labels. apply Forall_map.
    eapply Forall_impl; [|exact Hin]. simpl; intros c Hc. lia.
Qed.

End Query.

(** The loop neither reads nor writes the world. *)
Lemma closest_loop_pure kb indices : forall acc w w0,
  closest_loop kb indices acc w
  = (fst (closest_loop kb indices acc w0), w).
Proof.
  induction indices as [|idx rest IH]; intros acc w w0; simpl.
  - reflexivity.
  - unfold bind at 1 3. destruct kb as [docs|]; simpl; [|reflexivity].
    destruct (_ <? _)%Z; [|apply IH].
    unfold bind. destruct (py_getitem docs idx); simpl; [apply IH|].
    reflexivity.
Qed.

(* ------------------------------------------------------------------ *)
(** ** Degenerate queries and the fallback entries *)
(* ------------------------------------------------------------------ *)

Lemma degenerate_query_returns
  (provider : nat -> str -> option Faiss.vec)
  (query : option str) (w : World) :
  query = None \/ (exists q, query = Some q /\ PyStr.blank q = true) ->
  get_knowledge_base provider query w = (Ok [no_question], w).
Proof.
  intros [-> | (q & -> & Hb)]; simpl; [reflexivity|].
  apply degenerate_iff_blank in Hb. rewrite Hb. reflexivity.
Qed.

(** C3: for a query that is [None], empty or made of whitespace only,
    [get_knowledge_base] returns exactly the one "no specific question"
    entry and leaves the world as it found it: no event is added to the
    trace, so the embedding provider is not called. *)
Theorem C3_degenerate_query_short_circuits
  (provider : nat -> str -> option Faiss.vec)
  (query : option str) (w : World) :
  query = None \/ (exists q, query = Some q /\ PyStr.blank q = true) ->
  get_knowledge_base provider query w = (Ok [no_question], w)
  /\ embed_calls (trace (snd (get_knowledge_base provider query w)))
     = embed_calls (trace w).
Proof.
  intros H. rewrite (degenerate_query_returns provider query w H).
  split; reflexivity.
Qed.

Lemma C3_witness_blank_query :
  get_knowledge_base Fixture.provider (Some (PyStr.lit "   "))
                     (Fixture.imported Fixture.two_documents)
  = (Ok [no_question], Fixture.imported Fixture.two_documents)
  /\ embed_calls
       (trace (snd (get_knowledge_base
                      Fixture.provider (Some (PyStr.lit "   "))
                      (Fixture.imported Fixture.two_documents))))
     = embed_calls (trace (Fixture.imported Fixture.two_documents)).
Proof.
  apply (C3_degenerate_query_short_circuits
           Fixture.provider (Some (PyStr.lit "   "))
           (Fixture.imported Fixture.two_documents)).
  right. exists (PyStr.lit "   "). split; reflexivity.
Defined.

(** C10: both fallback entries are named "no_document.html".  A
    degenerate query yields exactly the "Please ask a specific question"
    entry; a query whose loop over the returned positions ends with an
    empty list yields exactly the "I couldn't find information" entry.
    The name has the extension of the corpus files, so a file of the
    knowledge base may carry it too. *)
Theorem C10_fallback_entries
  (provider : nat -> str -> option Faiss.vec) :
  (forall query w,
      query = None \/ (exists q, query = Some q /\ PyStr.blank q = true) ->
      fst (get_knowledge_base provider query w)
      = Ok [(PyStr.lit "no_document.html",
             PyStr.lit
               "Please ask a specific question about medical services.")])
  /\ (forall q w v ix ds labels,
        degenerate q = false ->
        provider (embed_calls (trace w)) q = Some v ->
        index (globals w) = Some ix ->
        Faiss.search ix v 4 = Some (ds, labels) ->
        fst (closest_loop (knowledge_base_documents (globals w))
                          labels [] w) = Ok [] ->
        fst (get_knowledge_base provider (Some q) w)
        = Ok [(PyStr.lit "no_document.html",
               PyStr.lit
                 "I couldn't find information related to your question in my knowledge base.")])
  /\ fst no_question = fst not_found
  /\ (forall file, is_html (fst no_question, file) = true).
Proof.
  split; [|split; [|split]].
  - intros query w H.
    rewrite (degenerate_query_returns provider query w H). reflexivity.
  - intros q w v ix ds labels Hq Hp Hix Hs Hloop.
    simpl. rewrite Hq. unfold retrieve, bind at 1.
    rewrite (generate_embeddings_returns provider q w v Hp).
    unfold bind at 1, get_globals; simpl.
    unfold bind at 1. rewrite Hix; simpl.
    unfold bind at 1, emit; simpl.
    unfold bind at 1. rewrite Hs; simpl.
    unfold bind at 1.
    rewrite (closest_loop_pure _ labels [] _ w), Hloop. reflexivity.
  - reflexivity.
  - intros file. reflexivity.
Qed.

Lemma C10_witness_nothing_survives :
  fst (get_knowledge_base Fixture.provider (Some Fixture.question)
                          Fixture.misaligned)
  = Ok [(PyStr.lit "no_document.html",
         PyStr.lit
           "I couldn't find information related to your question in my knowledge base.")].
Proof.
  destruct (C10_fallback_entries Fixture.provider) as (_ & H & _).
  apply (H Fixture.question Fixture.misaligned [3; 1]%Z
           {| Faiss.d := 2;
              Faiss.xb := [[50; 50]; [3; 1]; [3; 2]; [5; 1]; [3; 4]]%Z |}
           [Some 0; Some 1; Some 4; Some 9]%Z [1; 2; 3; 4]%Z);
    reflexivity.
Defined.

(* ------------------------------------------------------------------ *)
(** ** The build: configuration errors, alignment, dimension *)
(* ------------------------------------------------------------------ *)

Lemma filter_is_html_nil (entries : list (str * option str)) :
  (forall name file, In (name, file) entries ->
                     PyStr.endswith name (PyStr.lit ".html") = false) ->
  filter is_html entries = [].
Proof.
  induction entries as [|[name file] rest IH]; intros H; simpl.
  - reflexivity.
  - unfold is_html at 1; simpl.
    rewrite (H name file) by (left; reflexivity).
    apply IH. intros n f Hin. apply (H n f). right; exact Hin.
Qed.

(** C4: when the source directory is absent, or holds no entry whose
    name ends in ".html", [load_knowledge_base] raises a ValueError
    without touching the world, and importing the module ends with that
    error: no index is allocated, no document list is bound and the
    embedding provider has not been called, so nothing can be served. *)
Theorem C4_absent_or_empty_source_is_fatal
  (provider : nat -> str -> option Faiss.vec)
  (src : source) (w : World) :
  src = Absent
  \/ (exists entries,
        src = Directory entries
        /\ forall name file, In (name, file) entries ->
             PyStr.endswith name (PyStr.lit ".html") = false) ->
  exists msg,
    load_knowledge_base provider src w = (Raise (ValueError msg), w)
    /\ module_init provider src w
       = (Raise (ValueError msg),
          {| globals := {| embedding_dimension := None;
                           index := None;
                           knowledge_base_documents := None |};
             trace := trace w |}).
Proof.
  intros [-> | (entries & -> & H)].
  - eexists; split; reflexivity.
  - apply filter_is_html_nil in H.
    exists "No HTML files found in ./phase2_data"%string.
    unfold module_init, load_knowledge_base, bind, set_globals; simpl.
    rewrite H. split; reflexivity.
Qed.

Lemma C4_witness_no_html_files :
  exists msg,
    load_knowledge_base Fixture.provider Fixture.no_html Fixture.fresh
    = (Raise (ValueError msg), Fixture.fresh)
    /\ module_init Fixture.provider Fixture.no_html Fixture.fresh
       = (Raise (ValueError msg),
          {| globals := {| embedding_dimension := None;
                           index := None;
                           knowledge_base_documents := None |};
             trace := trace Fixture.fresh |}).
Proof.
  apply (C4_absent_or_empty_source_is_fatal
           Fixture.provider Fixture.no_html Fixture.fresh).
  right. eexists. split; [reflexivity|].
  intros name file [E | [E | []]]; inversion E; subst; reflexivity.
Defined.

Lemma Forall2_names (files : list (str * option str))
      (docs : list document) :
  Forall2 (fun f doc => fst doc = fst f /\ snd f = Some (snd doc))
          files docs ->
  map fst docs = map fst files.
Proof.
  induction 1 as [|f doc fs ds [E _] _ IH]; simpl; congruence.
Qed.

(** C5: after a successful import the index holds as many vectors as
    the document list has entries, the vector at position [i] is what the
    provider answered for the content of the document at position [i]
    (the [i]-th call of the build), and the documents are in the order
    in which the directory listed their files. *)
Theorem C5_index_positions_match_documents
  (provider : nat -> str -> option Faiss.vec)
  (src : source) (w w' : World) :
  module_init provider src w = (Ok tt, w') ->
  exists ix docs,
    index (globals w') = Some ix
    /\ knowledge_base_documents (globals w') = Some docs
    /\ Faiss.ntotal ix = length docs
    /\ (forall i doc, nth_error docs i = Some doc ->
          exists v, nth_error (Faiss.xb ix) i = Some v
                    /\ provider (embed_calls (trace w) + i) (snd doc)
                       = Some v)
    /\ exists entries,
         src = Directory entries
         /\ map fst docs = map fst (filter is_html entries).
Proof.
  intros H.
  apply module_init_ok in H as (docs & Hkb & B & entries & Hsrc & F).
  destruct B as (D & embs & HD & Hix & Hne & Hlen & Hall & Hnth).
  exists {| Faiss.d := D; Faiss.xb := embs |}, docs.
  repeat split; auto.
  exists entries. split; [exact Hsrc|]. apply Forall2_names. exact F.
Qed.

Lemma C5_witness_two_documents :
  exists ix docs,
    index (globals (Fixture.imported Fixture.two_documents)) = Some ix
    /\ knowledge_base_documents
         (globals (Fixture.imported Fixture.two_documents)) = Some docs
    /\ Faiss.ntotal ix = length docs
    /\ (forall i doc, nth_error docs i = Some doc ->
          exists v, nth_error (Faiss.xb ix) i = Some v
                    /\ Fixture.provider
                         (embed_calls (trace Fixture.fresh) + i) (snd doc)
                       = Some v)
    /\ exists entries,
         Fixture.two_documents = Directory entries
         /\ map fst docs = map fst (filter is_html entries).
Proof.
  apply (C5_index_positions_match_documents
           Fixture.provider Fixture.two_documents Fixture.fresh
           (Fixture.imported Fixture.two_documents)).
  vm_compute. reflexivity.
Defined.

(** C6: after a successful import the recorded dimension [D] is the
    length of the vector the provider answered for the first document,
    the index was allocated for [D], and every vector stored in the
    index has length [D]; any two stored vectors have equal length. *)
Theorem C6_dimension_fixed_by_first_embedding
  (provider : nat -> str -> option Faiss.vec)
  (src : source) (w w' : World) :
  module_init provider src w = (Ok tt, w') ->
  exists D ix doc0 more v0,
    embedding_dimension (globals w') = Some D
    /\ index (globals w') = Some ix
    /\ Faiss.d ix = D
    /\ knowledge_base_documents (globals w') = Some (doc0 :: more)
    /\ provider (embed_calls (trace w)) (snd doc0) = Some v0
    /\ nth_error (Faiss.xb ix) 0 = Some v0
    /\ length v0 = D
    /\ Forall (fun v => length v = D) (Faiss.xb ix)
    /\ (forall v1 v2, In v1 (Faiss.xb ix) -> In v2 (Faiss.xb ix) ->
                      length v1 = length v2).
Proof.
  intros H.
  apply module_init_ok in H as (docs & Hkb & B & _).
  destruct B as (D & embs & HD & Hix & Hne & Hlen & Hall & Hnth).
  destruct docs as [|doc0 more]; [congruence|].
  destruct (Hnth 0%nat doc0 eq_refl) as (v0 & Hv0 & Hp).
  rewrite Nat.add_0_r in Hp.
  exists D, {| Faiss.d := D; Faiss.xb := embs |}, doc0, more, v0.
  simpl. repeat split; auto.
  - apply nth_error_In in Hv0.
    rewrite Forall_forall in Hall. apply Hall. exact Hv0.
  - intros v1 v2 H1 H2. rewrite Forall_forall in Hall.
    rewrite (Hall v1 H1), (Hall v2 H2). reflexivity.
Qed.

Lemma C6_witness_four_documents :
  exists D ix doc0 more v0,
    embedding_dimension (globals (Fixture.imported Fixture.four_documents))
    = Some D
    /\ index (globals (Fixture.imported Fixture.four_documents)) = Some ix
    /\ Faiss.d ix = D
    /\ knowledge_base_documents
         (globals (Fixture.imported Fixture.four_documents))
       = Some (doc0 :: more)
    /\ Fixture.provider (embed_calls (trace Fixture.fresh)) (snd doc0)
       = Some v0
    /\ nth_error (Faiss.xb ix) 0 = Some v0
    /\ length v0 = D
    /\ Forall (fun v => length v = D) (Faiss.xb ix)
    /\ (forall v1 v2, In v1 (Faiss.xb ix) -> In v2 (Faiss.xb ix) ->
                      length v1 = length v2).
Proof.
  apply (C6_dimension_fixed_by_first_embedding
           Fixture.provider Fixture.four_documents Fixture.fresh
           (Fixture.imported Fixture.four_documents)).
  vm_compute. reflexivity.
Defined.

(* ------------------------------------------------------------------ *)
(** ** Queries are read-only; provider failures propagate *)
(* ------------------------------------------------------------------ *)

(** C7: take any world whose globals are those a successful import
    left behind.  A query whose embeddings call fails ends with that
    failure (nothing is returned in its place) and leaves the globals as
    they were; a later query whose embeddings call answers a vector of
    the recorded dimension then returns a list.  Whatever the state, the
    query and the outcome, [get_knowledge_base] does not change the
    index, the document list or the recorded dimension. *)
Theorem C7_query_failure_propagates_and_state_is_read_only
  (provider : nat -> str -> option Faiss.vec)
  (src : source) (w0 w1 w : World) (q : str) :
  module_init provider src w0 = (Ok tt, w1) ->
  globals w = globals w1 ->
  degenerate q = false ->
  provider (embed_calls (trace w)) q = None ->
  fst (get_knowledge_base provider (Some q) w) = Raise ProviderError
  /\ globals (snd (get_knowledge_base provider (Some q) w)) = globals w
  /\ (forall q' v,
        degenerate q' = false ->
        provider
          (embed_calls
             (trace (snd (get_knowledge_base provider (Some q) w)))) q'
        = Some v ->
        embedding_dimension (globals w) = Some (length v) ->
        exists r,
          fst (get_knowledge_base
                 provider (Some q')
                 (snd (get_knowledge_base provider (Some q) w)))
          = Ok r)
  /\ (forall query w2,
        globals (snd (get_knowledge_base provider query w2))
        = globals w2).
Proof.
  intros Hinit Hsame Hq Hfail.
  apply module_init_ok in Hinit as (docs & Hkb & B & _).
  rewrite <- Hsame in Hkb, B.
  assert (E : get_knowledge_base provider (Some q) w
              = (Raise ProviderError,
                 {| globals := globals w;
                    trace := trace w ++ [EmbedCall q] |})).
  { simpl. rewrite Hq. apply retrieve_provider_failure. exact Hfail. }
  rewrite E; simpl. repeat split.
  - intros q' v Hq' Hp Hdim. rewrite Hq'.
    destruct (retrieve_on_built provider (embed_calls (trace w0)) docs q'
                {| globals := globals w;
                   trace := trace w ++ [EmbedCall q] |} v)
      as (r & Hr & _); auto.
    exists r. rewrite Hr. reflexivity.
  - intros query w2. apply keeps_get_knowledge_base.
Qed.

Lemma C7_witness_transient_fault :
  fst (get_knowledge_base (Fixture.faulty_at 3) (Some Fixture.question)
         (Fixture.served (Fixture.faulty_at 3)))
  = Raise ProviderError
  /\ exists r,
       fst (get_knowledge_base
              (Fixture.faulty_at 3) (Some Fixture.question)
              (snd (get_knowledge_base
                      (Fixture.faulty_at 3) (Some Fixture.question)
                      (Fixture.served (Fixture.faulty_at 3)))))
       = Ok r.
Proof.
  destruct (C7_query_failure_propagates_and_state_is_read_only
              (Fixture.faulty_at 3) Fixture.two_documents Fixture.fresh
              (snd (module_init (Fixture.faulty_at 3)
                      Fixture.two_documents Fixture.fresh))
              (Fixture.served (Fixture.faulty_at 3))
              Fixture.question)
    as (Hfail & _ & Hnext & _); try reflexivity.
  split; [exact Hfail|].
  apply (Hnext Fixture.question [3; 1]%Z); reflexivity.
Defined.

(* ------------------------------------------------------------------ *)
(** ** Knowledge bases of fewer than four documents *)
(* ------------------------------------------------------------------ *)

(** With a non-empty document list, the label [-1] passes the test of
    line 150 and line 151 reads the last document. *)
Lemma picked_minus_one (docs : list document) (last : document) :
  picked (docs ++ [last]) (-1) = [last].
Proof.
  unfold picked. rewrite py_getitem_minus_one.
  destruct (Z.ltb_spec (-1) (Z.of_nat (length (docs ++ [last]))));
    [reflexivity | lia].
Qed.

(** C1, on a knowledge base of one document: the search answers the
    positions [0; -1; -1; -1].  The three positions [-1] lie outside the
    document list, yet none of them is ignored: each one adds the last
    document, so the only document comes back four times. *)
Example C1_missing_neighbour_selects_last_document :
  index (globals (Fixture.imported Fixture.one_document))
  = Some {| Faiss.d := 2; Faiss.xb := [[0; 0]%Z] |}
  /\ knowledge_base_documents
       (globals (Fixture.imported Fixture.one_document))
     = Some [Fixture.doc_a]
  /\ Faiss.search {| Faiss.d := 2; Faiss.xb := [[0; 0]%Z] |} [3; 1]%Z 4
     = Some ([Some 10%Z; None; None; None], [0; -1; -1; -1]%Z)
  /\ fst (get_knowledge_base Fixture.provider (Some Fixture.question)
            (Fixture.imported Fixture.one_document))
     = Ok [Fixture.doc_a; Fixture.doc_a; Fixture.doc_a; Fixture.doc_a].
Proof. repeat split; vm_compute; reflexivity. Qed.

(** C2, on a knowledge base of two documents: the query returns four
    entries, two more than there are documents. *)
Example C2_two_documents_four_entries :
  knowledge_base_documents
    (globals (Fixture.imported Fixture.two_documents))
  = Some [Fixture.doc_a; Fixture.doc_b]
  /\ exists r,
       fst (get_knowledge_base Fixture.provider (Some Fixture.question)
              (Fixture.imported Fixture.two_documents)) = Ok r
       /\ r = [Fixture.doc_b; Fixture.doc_a; Fixture.doc_b; Fixture.doc_b]
       /\ (length r > 2)%nat.
Proof.
  split; [reflexivity|].
  eexists; split; [vm_compute; reflexivity|].
  split; [reflexivity | simpl; lia].
Qed.

(** C8, on a knowledge base of three documents whose last one is the
    nearest to the query: the distances of the returned documents to the
    query, in the order returned, are 1, 10, 25, 1, which is not
    ascending. *)
Example C8_three_documents_not_in_distance_order :
  exists r,
    fst (get_knowledge_base Fixture.provider (Some Fixture.question)
           (Fixture.imported Fixture.three_documents)) = Ok r
    /\ r = [Fixture.doc_b; Fixture.doc_a; Fixture.doc_c; Fixture.doc_b]
    /\ map (stored_distance
              (globals (Fixture.imported Fixture.three_documents))
              [3; 1]%Z) r
       = map Some [1; 10; 25; 1]%Z
    /\ ascending [1; 10; 25; 1]%Z = false
    /\ ~ Sorted Z.le [1; 10; 25; 1]%Z.
Proof.
  eexists; split; [vm_compute; reflexivity|].
  repeat split; try (vm_compute; reflexivity).
  intros S.
  apply Sorted_inv in S as [S _]. apply Sorted_inv in S as [S _].
  apply Sorted_inv in S as [_ S]. inversion S; subst. lia.
Qed.

(** C9, on a knowledge base of four documents: one search is made, for
    4 neighbours, and all four documents found are returned to the
    caller, one more than three. *)
Example C9_four_neighbours_requested_and_returned :
  exists r,
    get_knowledge_base Fixture.provider (Some Fixture.question)
                       (Fixture.imported Fixture.four_documents)
    = (Ok r,
       {| globals := globals (Fixture.imported Fixture.four_documents);
          trace := trace (Fixture.imported Fixture.four_documents)
                   ++ [EmbedCall Fixture.question;
                       SearchCall [3; 1]%Z 4] |})
    /\ r = [Fixture.doc_b; Fixture.doc_a; Fixture.doc_c; Fixture.doc_d]
    /\ (length r > 3)%nat.
Proof.
  eexists; split; [vm_compute; reflexivity|].
  split; [reflexivity | simpl; lia].
Qed.

(* ------------------------------------------------------------------ *)
(** ** More on the search: the ranking is a permutation *)
(* ------------------------------------------------------------------ *)

Module FaissRanking.
Import Faiss.

Lemma insert_perm c l : Permutation (c :: l) (insert c l).
Proof.
  induction l as [|c' l IH]; simpl.
  - apply Permutation_refl.
  - destruct (_ <=? _)%Z.
    + apply Permutation_refl.
    + eapply Permutation_trans; [apply perm_swap|].
      apply perm_skip. exact IH.
Qed.

Lemma sort_perm l : Permutation l (fold_right insert [] l).
Proof.
  induction l as [|c l IH]; simpl.
  - apply perm_nil.
  - eapply Permutation_trans; [apply perm_skip; exact IH|].
    apply insert_perm.
Qed.

Lemma ranked_perm ix q :
  Permutation (candidates_from 0 q (xb ix)) (ranked ix q).
Proof. apply sort_perm. Qed.

(** The labels of the candidates are the positions, in order. *)
Lemma candidates_from_positions q vs : forall pos,
  map snd (candidates_from pos q vs)
  = map (fun i => (pos + Z.of_nat i)%Z) (seq 0 (length vs)).
Proof.
  induction vs as [|v vs IH]; intros pos; simpl; [reflexivity|].
  rewrite Z.add_0_r. f_equal.
  rewrite IH, <- seq_shift, map_map.
  apply map_ext. intros i. lia.
Qed.

Lemma ranked_positions ix q :
  Permutation (map Z.of_nat (seq 0 (ntotal ix))) (map snd (ranked ix q)).
Proof.
  eapply Permutation_trans; [|apply Permutation_map, ranked_perm].
  rewrite candidates_from_positions. apply Permutation_refl.
Qed.









End FaissRanking.

(* ------------------------------------------------------------------ *)
(** ** Queries on a built index: what comes back *)
(* ------------------------------------------------------------------ *)

Lemma picked_In docs idx doc : In doc (picked docs idx) -> In doc docs.
Proof.
  unfold picked, py_getitem.
  destruct (_ <? _)%Z; [|contradiction].
  destruct (0 <=? idx)%Z.
  - destruct (nth_error docs (Z.to_nat idx)) eqn:E; [|contradiction].
    intros [<- | []]. eapply nth_error_In; exact E.
  - destruct (_ <=? idx)%Z; [|contradiction].
    destruct (nth_error docs _) eqn:E; [|contradiction].
    intros [<- | []]. eapply nth_error_In; exact E.
Qed.

Lemma flat_map_picked_In docs labels doc :
  In doc (flat_map (picked docs) labels) -> In doc docs.
Proof.
  intros H. apply in_flat_map in H as (idx & _ & H).
  eapply picked_In; exact H.
Qed.

Lemma In_firstn {A} (l : list A) (x : A) : forall k,
  In x (firstn k l) -> In x l.
Proof.
  induction l as [|a l IH]; intros [|k]; simpl; try contradiction.
  intros [H | H]; [left; exact H | right; eapply IH; exact H].
Qed.


Lemma skipn_nth_error {A} (l : list A) : forall a x,
  nth_error l a = Some x -> skipn a l = x :: skipn (S a) l.
Proof.
  induction l as [|y l IH]; intros [|a] x H; simpl in *; try discriminate.
  - inversion H; reflexivity.
  - apply IH. exact H.
Qed.

(** Reading the positions [a, a+1, ..., a+b-1] of the document list gives
    that slice of the list. *)
Lemma flat_map_picked_slice docs : forall b a,
  (a + b <= length docs)%nat ->
  flat_map (picked docs) (map Z.of_nat (seq a b))
  = firstn b (skipn a docs).
Proof.
  induction b as [|b IH]; intros a H; simpl; [reflexivity|].
  rewrite IH by lia.
  destruct (nth_error docs a) as [doc|] eqn:E;
    [|apply nth_error_None in E; lia].
  unfold picked, py_getitem.
  destruct (Z.ltb_spec (Z.of_nat a) (Z.of_nat (length docs))); [|lia].
  destruct (Z.leb_spec 0 (Z.of_nat a)); [|lia].
  rewrite Nat2Z.id, E. simpl.
  rewrite (skipn_nth_error docs a doc E). reflexivity.
Qed.

Lemma flat_map_picked_all docs :
  flat_map (picked docs) (map Z.of_nat (seq 0 (length docs))) = docs.
Proof.
  rewrite flat_map_picked_slice by lia. simpl. apply firstn_all.
Qed.

Lemma flat_map_picked_minus_ones docs final m :
  flat_map (picked (docs ++ [final])) (repeat (-1)%Z m) = repeat final m.
Proof.
  induction m as [|m IH]; simpl; [reflexivity|].
  rewrite picked_minus_one, IH. reflexivity.
Qed.

Section BuiltQuery.

Variable provider : nat -> str -> option Faiss.vec.

(** The answer to a query on an aligned, non-empty state, in terms of
    the ranking of the stored vectors. *)
Lemma retrieve_by_ranking q w v embs docs :
  index (globals w)
  = Some {| Faiss.d := length v; Faiss.xb := embs |} ->
  knowledge_base_documents (globals w) = Some docs ->
  length embs = length docs ->
  docs <> [] ->
  provider (embed_calls (trace w)) q = Some v ->
  let best :=
    firstn 4 (Faiss.ranked {| Faiss.d := length v; Faiss.xb := embs |} v)
  in
  retrieve provider q w
  = (Ok (flat_map (picked docs)
           (map snd best ++ repeat (-1)%Z (4 - length best))),
     {| globals := globals w;
        trace := trace w ++ [EmbedCall q; SearchCall v 4] |}).
Proof.
  intros Hix Hkb Hlen Hne Hp best.
  set (ix := {| Faiss.d := length v; Faiss.xb := embs |}) in *.
  assert (Hs : Faiss.search ix v 4
               = Some (map (fun c => Some (fst c)) best
                         ++ repeat None (4 - length best),
                       map snd best ++ repeat (-1)%Z (4 - length best))).
  { unfold Faiss.search. simpl. rewrite Nat.eqb_refl. reflexivity. }
  destruct (FaissFacts.search_labels _ _ _ _ _ Hs) as [Hk Hr].
  unfold Faiss.ntotal in Hr; simpl in Hr.
  assert (Hpos : (0 < length docs)%nat)
    by (destruct docs; [congruence | simpl; lia]).
  assert (Hin : Forall (fun l => (- Z.of_nat (length docs) <= l
                                  < Z.of_nat (length docs))%Z)
                       (map snd best ++ repeat (-1)%Z (4 - length best))).
  { eapply Forall_impl; [|exact Hr]. simpl; intros l Hl. lia. }
  rewrite (retrieve_run provider q w v ix _ _ docs Hp Hix Hs Hkb).
  - pose proof (flat_map_picked_length docs _ Hin) as Hfl.
    rewrite Hk in Hfl.
    destruct (flat_map (picked docs) _) eqn:E; [discriminate|reflexivity].
  - eapply Forall_impl; [|exact Hin]. simpl; intros l Hl. lia.
Qed.

End BuiltQuery.

(** X1: on the state left by a successful import, a non-blank query
    whose embedding has the recorded dimension returns exactly four
    entries, each of them a document of the knowledge base (never a
    fallback entry); it makes one embeddings call, on the query text as
    given (not stripped), and one search for 4 neighbours. *)
Theorem X1_built_query_returns_four_documents
  (provider : nat -> str -> option Faiss.vec)
  (src : source) (w0 w1 w : World) (q : str) (v : Faiss.vec) :
  module_init provider src w0 = (Ok tt, w1) ->
  globals w = globals w1 ->
  degenerate q = false ->
  provider (embed_calls (trace w)) q = Some v ->
  embedding_dimension (globals w) = Some (length v) ->
  exists r docs,
    get_knowledge_base provider (Some q) w
    = (Ok r, {| globals := globals w;
                trace := trace w ++ [EmbedCall q; SearchCall v 4] |})
    /\ knowledge_base_documents (globals w) = Some docs
    /\ length r = 4%nat
    /\ Forall (fun doc => In doc docs) r.
Proof.
  intros Hinit Hsame Hq Hp Hdim.
  apply module_init_ok in Hinit as (docs & Hkb & B & _).
  rewrite <- Hsame in Hkb, B.
  destruct (retrieve_on_built provider _ docs q w v B Hkb Hp Hdim)
    as (r & Hr & Hlen).
  destruct B as (D & embs & HD & Hix & Hne & Hl & _ & _).
  assert (D = length v) by congruence; subst D.
  pose proof (retrieve_by_ranking provider q w v embs docs
                Hix Hkb Hl Hne Hp) as E.
  cbv zeta in E. rewrite Hr in E. inversion E as [Er].
  exists r, docs. simpl. rewrite Hq, Hr.
  repeat split; auto.
  rewrite Er. apply Forall_forall. intros doc Hin.
  eapply flat_map_picked_In; exact Hin.
Qed.

Lemma X1_witness_padded_question :
  exists r docs,
    get_knowledge_base Fixture.provider
      (Some Fixture.question) (Fixture.imported Fixture.three_documents)
    = (Ok r,
       {| globals := globals (Fixture.imported Fixture.three_documents);
          trace := trace (Fixture.imported Fixture.three_documents)
                   ++ [EmbedCall Fixture.question;
                       SearchCall [3; 1]%Z 4] |})
    /\ knowledge_base_documents
         (globals (Fixture.imported Fixture.three_documents)) = Some docs
    /\ length r = 4%nat
    /\ Forall (fun doc => In doc docs) r.
Proof.
  apply (X1_built_query_returns_four_documents
           Fixture.provider Fixture.three_documents Fixture.fresh
           (Fixture.imported Fixture.three_documents)
           (Fixture.imported Fixture.three_documents)
           Fixture.question [3; 1]%Z); reflexivity.
Defined.



(** X3: with fewer than four documents in the knowledge base, the
    entries returned are every document exactly once (the ranked part),
    followed by as many copies of the last document of the list as are
    needed to make four entries. *)
Theorem X3_fewer_than_four_documents_padded_with_last
  (provider : nat -> str -> option Faiss.vec)
  (src : source) (w0 w1 w : World) (q : str) (v : Faiss.vec)
  (docs : list document) :
  module_init provider src w0 = (Ok tt, w1) ->
  globals w = globals w1 ->
  degenerate q = false ->
  provider (embed_calls (trace w)) q = Some v ->
  embedding_dimension (globals w) = Some (length v) ->
  knowledge_base_documents (globals w) = Some docs ->
  (length docs < 4)%nat ->
  exists ranked_part rest final,
    fst (get_knowledge_base provider (Some q) w)
    = Ok (ranked_part ++ repeat final (4 - length docs))
    /\ docs = rest ++ [final]
    /\ Permutation ranked_part docs.
Proof.
  intros Hinit Hsame Hq Hp Hdim Hkb Hfew.
  apply module_init_ok in Hinit as (docs' & Hkb' & B & _).
  rewrite <- Hsame in Hkb', B.
  assert (docs' = docs) by congruence; subst docs'.
  destruct B as (D & embs & HD & Hix & Hne & Hl & _ & _).
  assert (D = length v) by congruence; subst D.
  set (ix := {| Faiss.d := length v; Faiss.xb := embs |}) in *.
  pose proof (retrieve_by_ranking provider q w v embs docs
                Hix Hkb Hl Hne Hp) as E.
  cbv zeta in E. fold ix in E.
  assert (Hn : length (Faiss.ranked ix v) = length docs).
  { rewrite FaissFacts.ranked_length. unfold Faiss.ntotal, ix.
    cbn [Faiss.xb]. exact Hl. }
  rewrite firstn_all2 in E by lia. rewrite Hn in E.
  destruct (exists_last Hne) as (rest & final & Hdocs).
  exists (flat_map (picked docs) (map snd (Faiss.ranked ix v))),
         rest, final.
  simpl. rewrite Hq, E. simpl. rewrite flat_map_app.
  split; [|split; [exact Hdocs|]].
  - do 2 f_equal. rewrite Hdocs at 1.
    apply flat_map_picked_minus_ones.
  - eapply Permutation_trans;
      [apply Permutation_flat_map, Permutation_sym,
         (FaissRanking.ranked_positions ix v)|].
    unfold Faiss.ntotal, ix; cbn [Faiss.xb]. rewrite Hl.
    rewrite flat_map_picked_all. apply Permutation_refl.
Qed.

Lemma X3_witness_three_documents :
  exists ranked_part rest final,
    fst (get_knowledge_base Fixture.provider (Some Fixture.question)
           (Fixture.imported Fixture.three_documents))
    = Ok (ranked_part
            ++ repeat final
                 (4 - length [Fixture.doc_a; Fixture.doc_c;
                              Fixture.doc_b]))
    /\ [Fixture.doc_a; Fixture.doc_c; Fixture.doc_b] = rest ++ [final]
    /\ Permutation ranked_part
                   [Fixture.doc_a; Fixture.doc_c; Fixture.doc_b].
Proof.
  apply (X3_fewer_than_four_documents_padded_with_last
           Fixture.provider Fixture.three_documents Fixture.fresh
           (Fixture.imported Fixture.three_documents)
           (Fixture.imported Fixture.three_documents)
           Fixture.question [3; 1]%Z); try reflexivity.
  simpl. lia.
Defined.

(** X4: when the embedding of a non-blank query does not have the
    dimension of the index, [get_knowledge_base] ends with the
    AssertionError of the search; the embeddings call and the search
    call have been made, nothing is returned and the globals are as
    before. *)
Theorem X4_query_dimension_mismatch_raises
  (provider : nat -> str -> option Faiss.vec)
  (w : World) (q : str) (v : Faiss.vec) (ix : Faiss.IndexFlatL2) :
  degenerate q = false ->
  provider (embed_calls (trace w)) q = Some v ->
  index (globals w) = Some ix ->
  length v <> Faiss.d ix ->
  get_knowledge_base provider (Some q) w
  = (Raise AssertionError,
     {| globals := globals w;
        trace := trace w ++ [EmbedCall q; SearchCall v 4] |}).
Proof.
  intros Hq Hp Hix Hd. simpl. rewrite Hq.
  unfold retrieve, bind at 1.
  rewrite (generate_embeddings_returns provider q w v Hp).
  unfold bind at 1, get_globals; simpl.
  unfold bind at 1. rewrite Hix; simpl.
  unfold bind at 1, emit; simpl.
  unfold bind at 1, Faiss.search.
  destruct (Nat.eqb_spec (length v) (Faiss.d ix)); [contradiction|].
  simpl. rewrite <- app_assoc. reflexivity.
Qed.

Lemma X4_witness_three_components :
  get_knowledge_base
    (fun _ _ => Some [3; 1; 4]%Z) (Some Fixture.question)
    (Fixture.imported Fixture.two_documents)
  = (Raise AssertionError,
     {| globals := globals (Fixture.imported Fixture.two_documents);
        trace := trace (Fixture.imported Fixture.two_documents)
                 ++ [EmbedCall Fixture.question;
                     SearchCall [3; 1; 4]%Z 4] |}).
Proof.
  apply (X4_query_dimension_mismatch_raises
           (fun _ _ => Some [3; 1; 4]%Z)
           (Fixture.imported Fixture.two_documents) Fixture.question
           [3; 1; 4]%Z
           {| Faiss.d := 2; Faiss.xb := [[0; 0]; [3; 0]]%Z |});
    try reflexivity.
  simpl. lia.
Defined.

Lemma closest_loop_members kb indices : forall acc w r w',
  closest_loop kb indices acc w = (Ok r, w') ->
  Forall (fun doc => In doc acc
                     \/ exists docs, kb = Some docs /\ In doc docs) r.
Proof.
  induction indices as [|idx rest IH]; intros acc w r w' H; simpl in H.
  - inv_ret H. apply Forall_forall. auto.
  - inv_bind H as docs w1 Ek. inv_lift Ek as Hkb.
    assert (Hstep : forall acc',
               (forall doc, In doc acc' ->
                            In doc acc \/ In doc docs) ->
               closest_loop kb rest acc' w = (Ok r, w') ->
               Forall (fun doc => In doc acc
                                  \/ exists docs0, kb = Some docs0
                                                   /\ In doc docs0) r).
    { intros acc' Hacc H'. apply IH in H'.
      eapply Forall_impl; [|exact H']. simpl.
      intros doc [Hin | Hex]; [|right; exact Hex].
      destruct (Hacc doc Hin) as [Ha | Hd]; [left; exact Ha|].
      right. exists docs. auto. }
    destruct (_ <? _)%Z.
    + inv_bind H as doc w2 Eg. inv_lift Eg as Hget.
      apply (Hstep (acc ++ [doc])); [|exact H].
      intros d Hd. apply in_app_or in Hd as [Hd | [<- | []]]; [auto|].
      right. unfold py_getitem in Hget.
      destruct (0 <=? idx)%Z; [eapply nth_error_In; exact Hget|].
      destruct (_ <=? idx)%Z; [|discriminate].
      eapply nth_error_In; exact Hget.
    + apply (Hstep acc); auto.
Qed.

(** X5: whatever the state and the query, a call of
    [get_knowledge_base] that returns does not return the empty list,
    and every entry it returns is one of the two fallback entries or a
    member of the document list. *)
Theorem X5_result_is_never_empty
  (provider : nat -> str -> option Faiss.vec)
  (query : option str) (w w' : World) (r : list document) :
  get_knowledge_base provider query w = (Ok r, w') ->
  r <> []
  /\ Forall (fun doc =>
               doc = no_question \/ doc = not_found
               \/ exists docs,
                    knowledge_base_documents (globals w) = Some docs
                    /\ In doc docs) r.
Proof.
  intros H.
  assert (Hfb : forall r0 w0, ret [no_question] w = (Ok r0, w0) ->
            r0 <> []
            /\ Forall (fun doc =>
                 doc = no_question \/ doc = not_found
                 \/ exists docs,
                      knowledge_base_documents (globals w) = Some docs
                      /\ In doc docs) r0).
  { intros r0 w0 E. inv_ret E. split; [discriminate|].
    constructor; auto. }
  destruct query as [q|]; simpl in H; [|apply (Hfb _ _ H)].
  destruct (degenerate q); [apply (Hfb _ _ H)|].
  unfold retrieve in H.
  inv_bind H as v w1 Ev. apply generate_embeddings_ok in Ev as [_ ->].
  inv_bind H as g w2 Eg. unfold get_globals in Eg.
  inversion Eg; subst; clear Eg. simpl in H.
  inv_bind H as ix w3 Ei. inv_lift Ei as Hix.
  inv_bind H as u w4 Ee. unfold emit in Ee.
  inversion Ee; subst; clear Ee. simpl in H.
  inv_bind H as found w5 Es. inv_lift Es as Hs.
  inv_bind H as closest w6 Ec.
  apply closest_loop_members in Ec.
  destruct closest as [|doc more].
  - inv_ret H. split; [discriminate|]. constructor; auto.
  - inv_ret H. split; [discriminate|].
    eapply Forall_impl; [|exact Ec]. simpl.
    intros d [[] | Hex]. right; right. exact Hex.
Qed.

Lemma X5_witness_one_document :
  [Fixture.doc_a; Fixture.doc_a; Fixture.doc_a; Fixture.doc_a] <> []
  /\ Forall (fun doc =>
               doc = no_question \/ doc = not_found
               \/ exists docs,
                    knowledge_base_documents
                      (globals (Fixture.imported Fixture.one_document))
                    = Some docs
                    /\ In doc docs)
            [Fixture.doc_a; Fixture.doc_a; Fixture.doc_a; Fixture.doc_a].
Proof.
  apply (X5_result_is_never_empty
           Fixture.provider (Some Fixture.question)
           (Fixture.imported Fixture.one_document)
           (snd (get_knowledge_base
                   Fixture.provider (Some Fixture.question)
                   (Fixture.imported Fixture.one_document)))).
  reflexivity.
Defined.

(* ------------------------------------------------------------------ *)
(** ** The build: failures and repeated calls *)
(* ------------------------------------------------------------------ *)

Section BuildFailures.

Variable provider : nat -> str -> option Faiss.vec.

Lemma read_documents_readable files docs w :
  Forall2 (fun f doc => fst doc = fst f /\ snd f = Some (snd doc))
          files docs ->
  read_documents files w = (Ok docs, w).
Proof.
  induction 1 as [|[name file] [name' content] fs ds [E1 E2] _ IH]; simpl.
  - reflexivity.
  - simpl in E1, E2. subst. unfold bind at 1; simpl.
    unfold bind at 1. rewrite IH. reflexivity.
Qed.

Lemma read_documents_unreadable files name w :
  In (name, None) files ->
  read_documents files w = (Raise OSError, w).
Proof.
  induction files as [|[n [c|]] rest IH]; simpl; intros H.
  - contradiction.
  - destruct H as [H | H]; [discriminate|].
    unfold bind at 1; simpl. unfold bind at 1. rewrite (IH H). reflexivity.
  - reflexivity.
Qed.

Lemma embed_documents_step (doc : document) (rest : list document) w v :
  provider (embed_calls (trace w)) (snd doc) = Some v ->
  embed_documents provider (doc :: rest) w
  = match embed_documents provider rest (after_one w doc v) with
    | (Ok embs, w') => (Ok (v :: embs), w')
    | (Raise e, w') => (Raise e, w')
    end.
Proof.
  intros P. simpl. unfold bind at 1.
  rewrite (generate_embeddings_returns provider _ w v P).
  unfold bind at 1, get_globals; simpl.
  unfold after_one, after_embedding.
  destruct (embedding_dimension (globals w)) eqn:HD; simpl;
    unfold bind at 1; simpl; unfold bind at 1;
    destruct (globals w); simpl in *; subst;
    destruct (embed_documents provider rest _) as [[embs|e] w1];
    reflexivity.
Qed.

(** Whatever its outcome, the embedding loop changes the globals only by
    fixing the dimension and allocating an empty index. *)
Lemma embed_documents_globals (docs : list document) : forall w,
  exists got,
    globals (snd (embed_documents provider docs w))
    = after_embedding (globals w) got.
Proof.
  induction docs as [|d rest IH]; intros w.
  - exists []. simpl. unfold after_embedding.
    destruct (embedding_dimension _); reflexivity.
  - destruct (provider (embed_calls (trace w)) (snd d)) as [v|] eqn:P.
    + destruct (IH (after_one w d v)) as (got & G).
      exists [v]. rewrite (embed_documents_step d rest w v P).
      assert (E : after_embedding (globals (after_one w d v)) got
                  = after_embedding (globals w) [v]).
      { unfold after_one, after_embedding; simpl.
        destruct (embedding_dimension (globals w)) eqn:HD; simpl.
        - rewrite HD. reflexivity.
        - reflexivity. }
      rewrite <- E, <- G.
      destruct (embed_documents provider rest _) as [[embs|e] w1];
        reflexivity.
    + simpl. unfold bind at 1.
      rewrite (generate_embeddings_fails provider _ w P). simpl.
      exists []. unfold after_embedding.
      destruct (embedding_dimension _); reflexivity.
Qed.

Lemma embed_calls_after_one w doc v :
  embed_calls (trace (after_one w doc v)) = S (embed_calls (trace w)).
Proof. apply embed_calls_snoc. Qed.

(** A failing embeddings call ends the loop with that failure. *)
Lemma embed_documents_failure (docs : list document) :
  forall w j (doc : document),
  nth_error docs j = Some doc ->
  provider (embed_calls (trace w) + j) (snd doc) = None ->
  fst (embed_documents provider docs w) = Raise ProviderError.
Proof.
  induction docs as [|d rest IH]; intros w j doc Hj Hp.
  - destruct j; discriminate.
  - destruct (provider (embed_calls (trace w)) (snd d)) as [v|] eqn:P.
    + rewrite (embed_documents_step d rest w v P).
      destruct j as [|j].
      * simpl in Hj. inversion Hj; subst.
        rewrite Nat.add_0_r in Hp. congruence.
      * simpl in Hj.
        specialize (IH (after_one w d v) j doc Hj).
        rewrite embed_calls_after_one in IH.
        replace (S (embed_calls (trace w)) + j)%nat
          with (embed_calls (trace w) + S j)%nat in IH by lia.
        specialize (IH Hp).
        destruct (embed_documents provider rest _) as [[embs|e] w1];
          simpl in *; [discriminate | exact IH].
    + simpl. unfold bind at 1.
      rewrite (generate_embeddings_fails provider _ w P). reflexivity.
Qed.

(** When every embeddings call answers, the loop returns the answers in
    order, having made one call per document on its content. *)
Lemma embed_documents_success (docs : list document) : forall w embs,
  length embs = length docs ->
  (forall i (doc : document), nth_error docs i = Some doc ->
                 provider (embed_calls (trace w) + i) (snd doc)
                 = nth_error embs i) ->
  exists w',
    embed_documents provider docs w = (Ok embs, w')
    /\ globals w' = after_embedding (globals w) embs
    /\ trace w' = trace w ++ map (fun doc => EmbedCall (snd doc)) docs.
Proof.
  induction docs as [|d rest IH]; intros w embs Hlen Hp.
  - destruct embs; [|discriminate]. exists w. simpl.
    rewrite app_nil_r. repeat split.
    unfold after_embedding. destruct (embedding_dimension _); reflexivity.
  - destruct embs as [|v embs]; [discriminate|].
    pose proof (Hp 0%nat d eq_refl) as P. rewrite Nat.add_0_r in P.
    simpl in P.
    rewrite (embed_documents_step d rest w v P).
    destruct (IH (after_one w d v) embs) as (w' & E & G & T).
    { simpl in Hlen. lia. }
    { intros i doc Hi. rewrite embed_calls_after_one.
      replace (S (embed_calls (trace w)) + i)%nat
        with (embed_calls (trace w) + S i)%nat by lia.
      apply (Hp (S i) doc Hi). }
    exists w'. rewrite E. repeat split.
    + rewrite G. unfold after_one, after_embedding; simpl.
      destruct (embedding_dimension (globals w)) eqn:HD; simpl.
      * rewrite HD. destruct embs; reflexivity.
      * destruct embs; reflexivity.
    + rewrite T. unfold after_one; simpl.
      rewrite <- app_assoc. reflexivity.
Qed.

End BuildFailures.

Lemma vstack_unequal_widths embs i j (vi vj : Faiss.vec) :
  nth_error embs i = Some vi ->
  nth_error embs j = Some vj ->
  length vi <> length vj ->
  Faiss.vstack embs = None.
Proof.
  intros Hi Hj Hne. unfold Faiss.vstack.
  destruct embs as [|r rest]; [reflexivity|].
  destruct (forallb _ _) eqn:F; [|reflexivity].
  exfalso. rewrite forallb_forall in F.
  apply nth_error_In in Hi, Hj.
  apply F in Hi, Hj. apply Nat.eqb_eq in Hi, Hj. congruence.
Qed.

Lemma module_init_load_raises provider src w e w' :
  load_knowledge_base provider src
    {| globals := {| embedding_dimension := None;
                     index := None;
                     knowledge_base_documents := None |};
       trace := trace w |} = (Raise e, w') ->
  module_init provider src w = (Raise e, w').
Proof.
  intros H. unfold module_init, bind at 1, set_globals.
  unfold bind at 1. rewrite H. reflexivity.
Qed.

Lemma load_embed_raises provider entries docs w e w' :
  Forall2 (fun f (doc : document) =>
             fst doc = fst f /\ snd f = Some (snd doc))
          (filter is_html entries) docs ->
  docs <> [] ->
  embed_documents provider docs w = (Raise e, w') ->
  load_knowledge_base provider (Directory entries) w = (Raise e, w').
Proof.
  intros F Hne H. unfold load_knowledge_base.
  destruct (filter is_html entries) as [|f fs] eqn:Hf.
  - inversion F; subst. congruence.
  - unfold bind at 1. rewrite (read_documents_readable _ docs w F).
    unfold bind at 1. rewrite H. reflexivity.
Qed.

(** X6: if every .html file of the directory can be read and the
    embeddings call fails for one of the documents, the import ends with
    that failure: the document list stays unbound and the index, if it
    was allocated at all, holds no vector. *)
Theorem X6_build_provider_failure_aborts_import
  (provider : nat -> str -> option Faiss.vec)
  (entries : list (str * option str)) (docs : list document)
  (w : World) (j : nat) (doc : document) :
  Forall2 (fun f (d : document) => fst d = fst f /\ snd f = Some (snd d))
          (filter is_html entries) docs ->
  nth_error docs j = Some doc ->
  provider (embed_calls (trace w) + j) (snd doc) = None ->
  exists w',
    module_init provider (Directory entries) w = (Raise ProviderError, w')
    /\ knowledge_base_documents (globals w') = None
    /\ forall ix, index (globals w') = Some ix -> Faiss.xb ix = [].
Proof.
  intros F Hj Hp.
  set (w1 := {| globals := {| embedding_dimension := None;
                              index := None;
                              knowledge_base_documents := None |};
                trace := trace w |}).
  pose proof (embed_documents_failure provider docs w1 j doc Hj Hp) as E.
  destruct (embed_documents_globals provider docs w1) as (got & G).
  destruct (embed_documents provider docs w1) as [r w'] eqn:R.
  simpl in E, G. subst r.
  exists w'. split; [|split].
  - apply module_init_load_raises. fold w1.
    apply (load_embed_raises provider entries docs w1 _ w' F); [|exact R].
    intros ->. destruct j; discriminate.
  - rewrite G. unfold after_embedding; simpl. destruct got; reflexivity.
  - intros ix. rewrite G. unfold after_embedding; simpl.
    destruct got; simpl; intros H; inversion H; reflexivity.
Qed.

Lemma X6_witness_fault_on_second_document :
  exists w',
    module_init (Fixture.faulty_at 1) Fixture.two_documents Fixture.fresh
    = (Raise ProviderError, w')
    /\ knowledge_base_documents (globals w') = None
    /\ forall ix, index (globals w') = Some ix -> Faiss.xb ix = [].
Proof.
  apply (X6_build_provider_failure_aborts_import
           (Fixture.faulty_at 1)
           [Fixture.file Fixture.doc_a;
            (Fixture.lit "notes.txt", Some (Fixture.lit "B"));
            Fixture.file Fixture.doc_b]
           [Fixture.doc_a; Fixture.doc_b] Fixture.fresh 1 Fixture.doc_b).
  - repeat constructor.
  - reflexivity.
  - reflexivity.
Defined.

(** X7: if every embeddings call of the build answers but two of the
    answers differ in length, the import ends with the ValueError of
    [np.vstack]: no vector has been added to the index allocated for the
    first answer, and the document list stays unbound. *)
Theorem X7_build_unequal_dimensions_abort_import
  (provider : nat -> str -> option Faiss.vec)
  (entries : list (str * option str)) (docs : list document)
  (embs : list Faiss.vec) (w : World) (i j : nat) (vi vj : Faiss.vec) :
  Forall2 (fun f (d : document) => fst d = fst f /\ snd f = Some (snd d))
          (filter is_html entries) docs ->
  length embs = length docs ->
  (forall k (d : document), nth_error docs k = Some d ->
          provider (embed_calls (trace w) + k) (snd d)
          = nth_error embs k) ->
  nth_error embs i = Some vi ->
  nth_error embs j = Some vj ->
  length vi <> length vj ->
  exists w' v0,
    module_init provider (Directory entries) w
    = (Raise NumpyValueError, w')
    /\ knowledge_base_documents (globals w') = None
    /\ nth_error embs 0 = Some v0
    /\ index (globals w') = Some (Faiss.new (length v0)).
Proof.
  intros F Hlen Hp Hi Hj Hne.
  set (w1 := {| globals := {| embedding_dimension := None;
                              index := None;
                              knowledge_base_documents := None |};
                trace := trace w |}).
  destruct (embed_documents_success provider docs w1 embs Hlen Hp)
    as (w' & E & G & T).
  destruct embs as [|v0 more]; [destruct i; discriminate|].
  exists w', v0.
  unfold after_embedding in G; simpl in G.
  split; [|rewrite G; simpl; auto].
  apply module_init_load_raises. fold w1.
  unfold load_knowledge_base.
  destruct (filter is_html entries) as [|f fs] eqn:Hf.
  { inversion F; subst. discriminate. }
  unfold bind at 1. rewrite (read_documents_readable _ docs w1 F).
  unfold bind at 1. rewrite E.
  unfold bind at 1, add_to_index, bind at 1, get_globals.
  unfold bind at 1. rewrite G; simpl.
  unfold bind at 1.
  pose proof (vstack_unequal_widths (v0 :: more) i j vi vj Hi Hj Hne)
    as V.
  unfold Faiss.vstack in V; simpl in V. rewrite V. reflexivity.
Qed.

Lemma X7_witness_ragged_embeddings :
  exists w' v0,
    module_init (fun n _ => Some (repeat 1%Z (S n)))
                Fixture.two_documents Fixture.fresh
    = (Raise NumpyValueError, w')
    /\ knowledge_base_documents (globals w') = None
    /\ nth_error [[1]; [1; 1]]%Z 0 = Some v0
    /\ index (globals w') = Some (Faiss.new (length v0)).
Proof.
  apply (X7_build_unequal_dimensions_abort_import
           (fun n _ => Some (repeat 1%Z (S n)))
           [Fixture.file Fixture.doc_a;
            (Fixture.lit "notes.txt", Some (Fixture.lit "B"));
            Fixture.file Fixture.doc_b]
           [Fixture.doc_a; Fixture.doc_b] [[1]; [1; 1]]%Z
           Fixture.fresh 0 1 [1]%Z [1; 1]%Z).
  - repeat constructor.
  - reflexivity.
  - intros [|[|k]] d H; simpl in H;
      try (destruct k; discriminate); inversion H; reflexivity.
  - reflexivity.
  - reflexivity.
  - simpl. lia.
Defined.

(** X8: if one entry of the directory whose name ends in ".html" cannot
    be opened and read, the import ends with that error before any
    embeddings call is made, and nothing is allocated; whether the other
    files are readable does not matter. *)
Theorem X8_unreadable_file_aborts_before_any_embedding
  (provider : nat -> str -> option Faiss.vec)
  (entries : list (str * option str)) (name : str) (w : World) :
  In (name, None) entries ->
  PyStr.endswith name (PyStr.lit ".html") = true ->
  module_init provider (Directory entries) w
  = (Raise OSError,
     {| globals := {| embedding_dimension := None;
                      index := None;
                      knowledge_base_documents := None |};
        trace := trace w |}).
Proof.
  intros Hin Hhtml.
  apply module_init_load_raises. unfold load_knowledge_base.
  assert (Hf : In (name, None) (filter is_html entries)).
  { apply filter_In. split; [exact Hin | exact Hhtml]. }
  destruct (filter is_html entries) as [|f fs] eqn:E; [contradiction|].
  unfold bind at 1.
  rewrite (read_documents_unreadable (f :: fs) name _ Hf). reflexivity.
Qed.

Lemma X8_witness_second_file_unreadable :
  module_init Fixture.provider
    (Directory [Fixture.file Fixture.doc_a;
                (Fixture.lit "b.html", None)])
    Fixture.fresh
  = (Raise OSError,
     {| globals := {| embedding_dimension := None;
                      index := None;
                      knowledge_base_documents := None |};
        trace := trace Fixture.fresh |}).
Proof.
  apply (X8_unreadable_file_aborts_before_any_embedding
           Fixture.provider
           [Fixture.file Fixture.doc_a; (Fixture.lit "b.html", None)]
           (Fixture.lit "b.html") Fixture.fresh).
  - right; left; reflexivity.
  - reflexivity.
Defined.

(** X9: [load_knowledge_base] called on a state whose dimension is
    already recorded does not start a new index: when it returns, the
    recorded dimension is unchanged and the vectors of the returned
    documents have been appended to those the index already held, so the
    index then holds more vectors than the returned list has documents
    unless it was empty. *)
Theorem X9_repeated_load_appends_to_index
  (provider : nat -> str -> option Faiss.vec)
  (src : source) (w w' : World) (docs : list document)
  (D : nat) (ix : Faiss.IndexFlatL2) :
  embedding_dimension (globals w) = Some D ->
  index (globals w) = Some ix ->
  load_knowledge_base provider src w = (Ok docs, w') ->
  embedding_dimension (globals w') = Some D
  /\ exists embs,
       index (globals w')
       = Some {| Faiss.d := Faiss.d ix; Faiss.xb := Faiss.xb ix ++ embs |}
       /\ length embs = length docs
       /\ forall ix', index (globals w') = Some ix' ->
                      Faiss.ntotal ix' = (Faiss.ntotal ix + length docs)%nat.
Proof.
  intros HD Hix H. unfold load_knowledge_base in H.
  destruct src as [| |entries]; try discriminate.
  destruct (filter is_html entries) as [|f fs] eqn:Hf; [discriminate|].
  inv_bind H as documents w1 Er. apply read_documents_ok in Er as [-> F].
  inv_bind H as embeddings w2 Ee.
  pose proof (embed_documents_ok _ _ _ _ _ Ee) as (L & _ & G).
  inv_bind H as u w3 Ea. inv_ret H.
  unfold add_to_index in Ea.
  inv_bind Ea as g w4 Eg. unfold get_globals in Eg.
  inversion Eg; subst; clear Eg.
  inv_bind Ea as ix0 w5 Ei. inv_lift Ei as Hix0.
  inv_bind Ea as x w6 Ex. inv_lift Ex as Hx.
  inv_bind Ea as ix' w7 Ex'. inv_lift Ex' as Hadd.
  unfold set_globals in Ea. inversion Ea; subst; clear Ea. simpl.
  unfold after_embedding in G. rewrite HD in G.
  rewrite G in Hix0 |- *. rewrite Hix in Hix0.
  inversion Hix0; subst ix0; clear Hix0.
  apply vstack_ok in Hx as (-> & _ & _).
  apply add_ok in Hadd as (_ & ->).
  split; [exact HD|]. exists embeddings. repeat split; auto.
  intros ix' E. inversion E; subst. unfold Faiss.ntotal; simpl.
  rewrite length_app. lia.
Qed.

Lemma X9_witness_second_load :
  embedding_dimension
    (globals (snd (load_knowledge_base
                     Fixture.provider Fixture.two_documents
                     (Fixture.imported Fixture.two_documents))))
  = Some 2%nat
  /\ exists embs,
       index
         (globals (snd (load_knowledge_base
                          Fixture.provider Fixture.two_documents
                          (Fixture.imported Fixture.two_documents))))
       = Some {| Faiss.d := 2;
                 Faiss.xb := [[0; 0]; [3; 0]]%Z ++ embs |}
       /\ length embs = length [Fixture.doc_a; Fixture.doc_b]
       /\ forall ix',
            index
              (globals (snd (load_knowledge_base
                               Fixture.provider Fixture.two_documents
                               (Fixture.imported Fixture.two_documents))))
            = Some ix' ->
            Faiss.ntotal ix'
            = (Faiss.ntotal {| Faiss.d := 2;
                               Faiss.xb := [[0; 0]; [3; 0]]%Z |}
               + length [Fixture.doc_a; Fixture.doc_b])%nat.
Proof.
  apply (X9_repeated_load_appends_to_index
           Fixture.provider Fixture.two_documents
           (Fixture.imported Fixture.two_documents)
           (snd (load_knowledge_base
                   Fixture.provider Fixture.two_documents
                   (Fixture.imported Fixture.two_documents)))
           [Fixture.doc_a; Fixture.doc_b] 2
           {| Faiss.d := 2; Faiss.xb := [[0; 0]; [3; 0]]%Z |});
    reflexivity.
Defined.

(** X10: a successful import makes exactly one embeddings call per
    document, in the order of the document list and on the content of
    the document, and no search of the index. *)
Theorem X10_import_embeds_each_document_once
  (provider : nat -> str -> option Faiss.vec)
  (src : source) (w w' : World) :
  module_init provider src w = (Ok tt, w') ->
  exists docs,
    knowledge_base_documents (globals w') = Some docs
    /\ trace w' = trace w ++ map (fun doc => EmbedCall (snd doc)) docs.
Proof.
  intros H. unfold module_init in H.
  inv_bind H as u w1 Es. unfold set_globals in Es.
  inversion Es; subst; clear Es.
  inv_bind H as docs w2 El.
  inv_bind H as g w3 Eg. unfold get_globals in Eg.
  inversion Eg; subst; clear Eg.
  unfold set_globals in H. inversion H; subst; clear H. simpl.
  exists docs. split; [reflexivity|].
  unfold load_knowledge_base in El.
  destruct src as [| |entries]; try discriminate.
  destruct (filter is_html entries) as [|f fs] eqn:Hf; [discriminate|].
  inv_bind El as documents w1 Er.
  apply read_documents_ok in Er as [-> F].
  inv_bind El as embeddings w2 Ee.
  pose proof (embed_documents_ok _ _ _ _ _ Ee) as (L & N & _).
  assert (S : exists w'',
             embed_documents provider documents
               {| globals := {| embedding_dimension := None;
                                index := None;
                                knowledge_base_documents := None |};
                  trace := trace w |} = (Ok embeddings, w'')
             /\ trace w''
                = trace w
                  ++ map (fun doc => EmbedCall (snd doc)) documents).
  { destruct (embed_documents_success
                provider documents
                {| globals := {| embedding_dimension := None;
                                 index := None;
                                 knowledge_base_documents := None |};
                   trace := trace w |} embeddings L)
      as (w'' & E & _ & T).
    - intros i doc Hi. destruct (N i doc Hi) as (v & Hv & Hp).
      rewrite Hv. exact Hp.
    - exists w''. auto. }
  destruct S as (w'' & E & T).
  rewrite Ee in E. inversion E; subst w''.
  inv_bind El as u' w4 Ea. inv_ret El.
  unfold add_to_index in Ea.
  inv_bind Ea as g w5 Eg. unfold get_globals in Eg.
  inversion Eg; subst; clear Eg.
  inv_bind Ea as ix0 w6 Ei. inv_lift Ei as Hix0.
  inv_bind Ea as x w7 Ex. inv_lift Ex as Hx.
  inv_bind Ea as ix' w8 Ex'. inv_lift Ex' as Hadd.
  unfold set_globals in Ea. inversion Ea; subst; clear Ea. simpl.
  exact T.
Qed.

Lemma X10_witness_four_documents :
  exists docs,
    knowledge_base_documents
      (globals (Fixture.imported Fixture.four_documents)) = Some docs
    /\ trace (Fixture.imported Fixture.four_documents)
       = trace Fixture.fresh
         ++ map (fun doc => EmbedCall (snd doc)) docs.
Proof.
  apply (X10_import_embeds_each_document_once
           Fixture.provider Fixture.four_documents Fixture.fresh
           (Fixture.imported Fixture.four_documents)).
  reflexivity.
Defined.

(* ------------------------------------------------------------------ *)
(** ** Facts about substring search and [split] *)
(* ------------------------------------------------------------------ *)

Module PyTextFacts.
Import PyText.

Lemma starts_with_iff (prefix s : str) :
  starts_with prefix s = true <-> exists post, s = prefix ++ post.
Proof.
  revert s; induction prefix as [|p prefix IH]; intros s; simpl.
  - split; [intros _; exists s; reflexivity | reflexivity].
  - destruct s as [|c s].
    + split; [discriminate | intros [post H]; discriminate].
    + rewrite andb_true_iff, N.eqb_eq, IH. split.
      * intros [-> [post ->]]. exists post. reflexivity.
      * intros [post H]. inversion H; subst. split; [reflexivity|].
        exists post. reflexivity.
Qed.

(** [needle in hay] holds exactly when [hay] can be cut around an
    occurrence of [needle]. *)
Lemma contains_iff (needle hay : str) :
  contains needle hay = true
  <-> exists pre post, hay = pre ++ needle ++ post.
Proof.
  induction hay as [|c hay IH].
  - simpl. rewrite orb_false_r, starts_with_iff. split.
    + intros [post H]. exists [], post. exact H.
    + intros (pre & post & H). destruct pre as [|x pre]; [|discriminate].
      exists post. exact H.
  - cbn [contains]. rewrite orb_true_iff, starts_with_iff, IH. split.
    + intros [[post H] | (pre & post & H)].
      * exists [], post. exact H.
      * exists (c :: pre), post. simpl. rewrite H. reflexivity.
    + intros (pre & post & H). destruct pre as [|x pre].
      * left. exists post. exact H.
      * right. inversion H; subst. exists pre, post. reflexivity.
Qed.

(** A text that holds [outer] holds what [outer] holds. *)
Lemma contains_inside (inner outer hay : str) :
  contains inner outer = true ->
  contains outer hay = true ->
  contains inner hay = true.
Proof.
  rewrite !contains_iff.
  intros (a & b & ->) (pre & post & ->).
  exists (pre ++ a), (b ++ post).
  rewrite <- !app_assoc. reflexivity.
Qed.

Lemma split_from_words s : forall word,
  forallb (fun c => negb (PyStr.isspace c)) word = true ->
  Forall is_word (split_from s word).
Proof.
  assert (R : forall word,
             word <> [] ->
             forallb (fun c => negb (PyStr.isspace c)) word = true ->
             is_word (rev word)).
  { intros word Hne Hw. split.
    - intros E. apply Hne. apply (f_equal (@rev _)) in E.
      rewrite rev_involutive in E. exact E.
    - rewrite forallb_forall in Hw |- *. intros c Hc.
      apply Hw. apply in_rev. exact Hc. }
  induction s as [|c s IH]; intros word Hw; simpl.
  - destruct word as [|x word]; [constructor|].
    constructor; [|constructor]. apply R; [discriminate | exact Hw].
  - destruct (PyStr.isspace c) eqn:Hc.
    + destruct word as [|x word]; [apply IH; reflexivity|].
      constructor; [apply R; [discriminate | exact Hw]|].
      apply IH; reflexivity.
    + apply IH. simpl. rewrite Hc, Hw. reflexivity.
Qed.

Lemma split_words s : Forall is_word (split s).
Proof. apply split_from_words. reflexivity. Qed.

Lemma filter_forallb {A} (f : A -> bool) (l : list A) :
  forallb f (filter f l) = true.
Proof.
  apply forallb_forall. intros x Hx. apply filter_In in Hx. tauto.
Qed.

Lemma firstn_forallb {A} (f : A -> bool) (l : list A) k :
  forallb f l = true -> forallb f (firstn k l) = true.
Proof.
  rewrite !forallb_forall. intros H x Hx. apply H.
  eapply In_firstn; exact Hx.
Qed.

End PyTextFacts.

(* ------------------------------------------------------------------ *)
(** ** [extract_user_info] *)
(* ------------------------------------------------------------------ *)

Section ExtractFacts.

Variable lower : str -> str.
Variable isdigit : PyStr.char -> bool.
Variable int_of : str -> option Z.

Lemma extract_loop_step (msg : message) (rest : list message) u :
  extract_loop lower isdigit int_of (msg :: rest) u
  = and_then (item msg "role") (fun role =>
    if is_str role (PyText.text "assistant") then
      match rest with
      | [] => extract_loop lower isdigit int_of rest u
      | next :: _ =>
          and_then (item next "role") (fun next_role =>
          if is_str next_role (PyText.text "user") then
            and_then (item msg "content") (fun content =>
            and_then (as_str content) (fun content_str =>
            and_then (item next "content") (fun next_content =>
            and_then (as_str next_content) (fun next_str =>
            if PyStr.truthy (PyStr.strip next_str)
            then extract_loop lower isdigit int_of rest
                   (extract_answer lower isdigit int_of
                      (lower content_str) (PyStr.strip next_str) u)
            else extract_loop lower isdigit int_of rest u))))
          else extract_loop lower isdigit int_of rest u)
      end
    else extract_loop lower isdigit int_of rest u).
Proof. reflexivity. Qed.

(** Reasoning on the loop, one answer at a time: a relation that holds
    across every single extraction holds across the loop. *)
Lemma extract_loop_by_steps (P : UserInfo -> UserInfo -> Prop)
      (history : list message) :
  (forall u, P u u) ->
  (forall u1 u2 u3, P u1 u2 -> P u2 u3 -> P u1 u3) ->
  (forall m c a u,
      In m history ->
      dict_get m (PyText.text "content") = Some (VStr c) ->
      PyStr.truthy (PyStr.strip c) = true ->
      P u (extract_answer lower isdigit int_of a (PyStr.strip c) u)) ->
  forall conv, incl conv history ->
  forall u u', extract_loop lower isdigit int_of conv u = Done u' ->
               P u u'.
Proof.
  intros Hrefl Htrans Hstep.
  induction conv as [|msg rest IH]; intros Hincl u u' H.
  - simpl in H. inversion H; subst. apply Hrefl.
  - assert (Hrest : incl rest history)
      by (intros x Hx; apply Hincl; right; exact Hx).
    specialize (IH Hrest).
    rewrite extract_loop_step in H.
    unfold and_then, item, as_str in H.
    destruct (dict_get msg (PyText.text "role")) as [role|];
      [|discriminate].
    destruct (is_str role (PyText.text "assistant")); [|apply IH; exact H].
    destruct rest as [|next tl]; [apply IH; exact H|].
    destruct (dict_get next (PyText.text "role")) as [next_role|];
      [|discriminate].
    destruct (is_str next_role (PyText.text "user")); [|apply IH; exact H].
    destruct (dict_get msg (PyText.text "content")) as [content|];
      [|discriminate].
    destruct content; try discriminate.
    destruct (dict_get next (PyText.text "content")) as [next_content|] eqn:Hc;
      [|discriminate].
    destruct next_content; try discriminate.
    destruct (PyStr.truthy (PyStr.strip s0)) eqn:Ht; [|apply IH; exact H].
    eapply Htrans; [|apply IH; exact H].
    apply (Hstep next s0); [|exact Hc | exact Ht].
    apply Hincl. right; left; reflexivity.
Qed.

Lemma extract_user_info_by_steps (P : UserInfo -> UserInfo -> Prop)
      response u u' :
  (forall u, P u u) ->
  (forall u1 u2 u3, P u1 u2 -> P u2 u3 -> P u1 u3) ->
  (forall m c a u0,
      In m (conversation_history u) ->
      dict_get m (PyText.text "content") = Some (VStr c) ->
      PyStr.truthy (PyStr.strip c) = true ->
      P u0 (extract_answer lower isdigit int_of a (PyStr.strip c) u0)) ->
  extract_user_info lower isdigit int_of response u = Done u' ->
  P u u'.
Proof.
  intros Hrefl Htrans Hstep H. unfold extract_user_info in H.
  destruct (conversation_history u) as [|m h] eqn:E.
  - inversion H; subst. apply Hrefl.
  - eapply (extract_loop_by_steps P (m :: h) Hrefl Htrans Hstep);
      [apply incl_refl | exact H].
Qed.

Lemma keeps_filled_refl u : keeps_filled u u.
Proof. unfold keeps_filled. tauto. Qed.

Lemma keeps_filled_trans u1 u2 u3 :
  keeps_filled u1 u2 -> keeps_filled u2 u3 -> keeps_filled u1 u3.
Proof.
  unfold keeps_filled.
  intros (N1 & I1 & G1 & A1 & H1 & C1 & T1 & K1)
         (N2 & I2 & G2 & A2 & H2 & C2 & T2 & K2).
  split; [|split; [|split; [|split; [|split; [|split; [|split]]]]]].
  - intros F. destruct (N1 F) as [E1 E2].
    rewrite <- E1, <- E2 in F. destruct (N2 F) as [E3 E4].
    split; congruence.
  - intros F. pose proof (I1 F) as E. rewrite <- E in F.
    rewrite (I2 F). exact E.
  - intros F. pose proof (G1 F) as E. rewrite <- E in F.
    rewrite (G2 F). exact E.
  - intros F. pose proof (A1 F) as E. rewrite <- E in F.
    rewrite (A2 F). exact E.
  - intros F. pose proof (H1 F) as E. rewrite <- E in F.
    rewrite (H2 F). exact E.
  - intros F. pose proof (C1 F) as E. rewrite <- E in F.
    rewrite (C2 F). exact E.
  - intros F. pose proof (T1 F) as E. rewrite <- E in F.
    rewrite (T2 F). exact E.
  - congruence.
Qed.

Ltac split_answer :=
  unfold extract_answer, hmo_answer, tier_answer;
  repeat match goal with
         | |- context [if ?c then _ else _] => destruct c eqn:?
         | |- context [match ?x with _ => _ end] => destruct x eqn:?
         end.

Ltac guard_contradiction :=
  match goal with
  | Hc : _ && negb ?t = true, Ht : ?t = true |- _ =>
      rewrite Ht in Hc; simpl in Hc; rewrite andb_false_r in Hc;
      discriminate
  | Hc : _ && (?a =? 0)%Z = true, Ha : ?a <> 0%Z |- _ =>
      apply andb_prop in Hc; destruct Hc as [_ Hc];
      apply Z.eqb_eq in Hc; contradiction
  end.

Lemma extract_answer_keeps a r u :
  keeps_filled u (extract_answer lower isdigit int_of a r u).
Proof.
  split_answer; unfold keeps_filled; simpl;
    repeat split; intros; try reflexivity; try guard_contradiction.
Qed.

Lemma extracted_from_refl u : extracted_from isdigit u u.
Proof. unfold extracted_from. tauto. Qed.

Lemma extracted_from_trans u1 u2 u3 :
  extracted_from isdigit u1 u2 -> extracted_from isdigit u2 u3 ->
  extracted_from isdigit u1 u3.
Proof.
  unfold extracted_from.
  intros (N1 & I1 & G1 & A1 & H1 & C1 & T1)
         (N2 & I2 & G2 & A2 & H2 & C2 & T2).
  split; [|split; [|split; [|split; [|split; [|split]]]]].
  - destruct N2 as [E | W]; [rewrite E; exact N1 | right; exact W].
  - destruct I2 as [E | W]; [rewrite E; exact I1 | right; exact W].
  - destruct G2 as [E | W]; [rewrite E; exact G1 | right; exact W].
  - destruct A2 as [E | W]; [rewrite E; exact A1 | right; exact W].
  - destruct H2 as [E | W]; [rewrite E; exact H1 | right; exact W].
  - destruct C2 as [E | W]; [rewrite E; exact C1 | right; exact W].
  - destruct T2 as [E | W]; [rewrite E; exact T1 | right; exact W].
Qed.

Lemma extract_answer_extracted a r u :
  extracted_from isdigit u (extract_answer lower isdigit int_of a r u).
Proof.
  pose proof (PyTextFacts.split_words r) as W.
  split_answer;
    try match goal with
        | E : PyText.split r = _ |- _ => rewrite E in W
        end;
    unfold extracted_from; cbn [first_name last_name id_number gender age
      hmo_name hmo_card_number membership_tier set_first_name
      set_last_name set_id_number set_gender set_age set_hmo_name
      set_hmo_card_number set_membership_tier];
    (split; [|split; [|split; [|split; [|split; [|split]]]]]);
    try (left; reflexivity).
  - right. inversion W; assumption.
  - right. inversion W; assumption.
  - right. split.
    + rewrite length_firstn.
      match goal with H : (9 <=? _)%nat = true |- _ =>
        apply Nat.leb_le in H; lia end.
    + apply PyTextFacts.firstn_forallb, PyTextFacts.filter_forallb.
  - right; left; reflexivity.
  - right; right; reflexivity.
  - right.
    match goal with H : (_ <=? _)%Z && (_ <=? _)%Z = true |- _ =>
      apply andb_prop in H; destruct H as [H1 H2];
      apply Z.leb_le in H1, H2; lia end.
  - right. simpl. auto.
  - right. simpl. auto.
  - right. simpl. auto.
  - right. simpl. auto.
  - right. split.
    + match goal with H : (8 <=? _)%nat = true |- _ =>
        apply Nat.leb_le in H; exact H end.
    + apply PyTextFacts.filter_forallb.
  - right. simpl. auto.
  - right. simpl. auto.
  - right. simpl. auto.
Qed.

Lemma extract_loop_other_roles
      (conv : list message) (u : UserInfo) :
  Forall (fun m => exists role,
              dict_get m (PyText.text "role") = Some role
              /\ is_str role (PyText.text "assistant") = false) conv ->
  extract_loop lower isdigit int_of conv u = Done u.
Proof.
  induction 1 as [|m rest (role & Hr & Ha) _ IH]; [reflexivity|].
  rewrite extract_loop_step. unfold and_then, item.
  rewrite Hr, Ha. exact IH.
Qed.

(** The gender is set to "Female" only by an answer that holds one of
    the two Hebrew words and none of the words for a man. *)
Lemma extract_answer_female a r u :
  gender (extract_answer lower isdigit int_of a r u)
  = PyText.text "Female" ->
  gender u = PyText.text "Female"
  \/ ((PyText.contains (PyText.text "נקבה") (lower r)
       || PyText.contains (PyText.text "אישה") (lower r)) = true
      /\ PyText.any_in Keywords.male (lower r) = false
      /\ PyText.contains (PyText.text "female") (lower r) = false
      /\ PyText.contains (PyText.text "woman") (lower r) = false).
Proof.
  split_answer;
    cbn [gender set_first_name set_last_name set_id_number set_gender
         set_age set_hmo_name set_hmo_card_number set_membership_tier];
    intros G; try (left; exact G); try discriminate.
  right.
  match goal with
  | Hm : PyText.any_in Keywords.male (lower r) = false,
    Hf : PyText.any_in Keywords.female (lower r) = true |- _ =>
      pose proof Hm as M; pose proof Hf as F
  end.
  unfold PyText.any_in, Keywords.male, Keywords.female in M, F.
  cbn [map existsb] in M, F.
  rewrite !orb_false_r in M. rewrite orb_false_r in F.
  apply orb_false_iff in M as [_ M].
  apply orb_false_iff in M as [_ M].
  apply orb_false_iff in M as [Mmale Mman].
  assert (Hfemale : PyText.contains (PyText.text "female") (lower r)
                    = false).
  { destruct (PyText.contains (PyText.text "female") (lower r)) eqn:E;
      [|reflexivity].
    rewrite <- Mmale. symmetry.
    apply (PyTextFacts.contains_inside _ (PyText.text "female"));
      [reflexivity | exact E]. }
  assert (Hwoman : PyText.contains (PyText.text "woman") (lower r)
                   = false).
  { destruct (PyText.contains (PyText.text "woman") (lower r)) eqn:E;
      [|reflexivity].
    rewrite <- Mman. symmetry.
    apply (PyTextFacts.contains_inside _ (PyText.text "woman"));
      [reflexivity | exact E]. }
  rewrite Hfemale, Hwoman, !orb_false_r in F.
  repeat split; assumption.
Qed.

End ExtractFacts.

(** X11: [extract_user_info] never replaces a value that is already
    there: a non-empty ID number, gender, HMO name, HMO card number and
    membership tier, a non-zero age, and the two names when both are
    non-empty, come back as they were, and so does the conversation
    history. *)
Theorem X11_extraction_never_overwrites
  (lower : str -> str) (isdigit : PyStr.char -> bool)
  (int_of : str -> option Z)
  (response : option str) (u u' : UserInfo) :
  extract_user_info lower isdigit int_of response u = Done u' ->
  (first_name u <> [] -> last_name u <> [] ->
   first_name u' = first_name u /\ last_name u' = last_name u)
  /\ (id_number u <> [] -> id_number u' = id_number u)
  /\ (gender u <> [] -> gender u' = gender u)
  /\ (age u <> 0%Z -> age u' = age u)
  /\ (hmo_name u <> [] -> hmo_name u' = hmo_name u)
  /\ (hmo_card_number u <> [] -> hmo_card_number u' = hmo_card_number u)
  /\ (membership_tier u <> [] -> membership_tier u' = membership_tier u)
  /\ conversation_history u' = conversation_history u.
Proof.
  intros H.
  assert (K : keeps_filled u u').
  { apply (extract_user_info_by_steps lower isdigit int_of
             keeps_filled response u u');
      [apply keeps_filled_refl | apply keeps_filled_trans | | exact H].
    intros m c a u0 _ _ _. apply extract_answer_keeps. }
  assert (T : forall s : str, s <> [] -> PyStr.truthy s = true)
    by (intros [|c s] Hs; [congruence | reflexivity]).
  destruct K as (N & I & G & A & Hm & C & Ti & Hist).
  repeat split; auto.
  - apply N; auto. rewrite !T by assumption. reflexivity.
  - apply N; auto. rewrite !T by assumption. reflexivity.
Qed.

Lemma X11_witness_id_number_kept :
  (first_name Desk.half_known <> [] -> last_name Desk.half_known <> [] ->
   first_name (Desk.extracted Desk.half_known)
   = first_name Desk.half_known
   /\ last_name (Desk.extracted Desk.half_known)
      = last_name Desk.half_known)
  /\ (id_number Desk.half_known <> [] ->
      id_number (Desk.extracted Desk.half_known)
      = id_number Desk.half_known)
  /\ (gender Desk.half_known <> [] ->
      gender (Desk.extracted Desk.half_known) = gender Desk.half_known)
  /\ (age Desk.half_known <> 0%Z ->
      age (Desk.extracted Desk.half_known) = age Desk.half_known)
  /\ (hmo_name Desk.half_known <> [] ->
      hmo_name (Desk.extracted Desk.half_known)
      = hmo_name Desk.half_known)
  /\ (hmo_card_number Desk.half_known <> [] ->
      hmo_card_number (Desk.extracted Desk.half_known)
      = hmo_card_number Desk.half_known)
  /\ (membership_tier Desk.half_known <> [] ->
      membership_tier (Desk.extracted Desk.half_known)
      = membership_tier Desk.half_known)
  /\ conversation_history (Desk.extracted Desk.half_known)
     = conversation_history Desk.half_known.
Proof.
  apply (X11_extraction_never_overwrites
           Desk.lower Desk.isdigit Desk.int_of None
           Desk.half_known (Desk.extracted Desk.half_known)).
  vm_compute. reflexivity.
Defined.

(** X12: every field that [extract_user_info] changes gets a value of a
    fixed shape: the first name is one word without whitespace, the ID
    number is 9 digit characters, the gender is "Male" or "Female", the
    age lies between 0 and 120, the HMO name is one of the four Hebrew
    names, the HMO card number is at least 8 digit characters and the
    membership tier is one of the three Hebrew tier names. *)
Theorem X12_extracted_values_have_fixed_shapes
  (lower : str -> str) (isdigit : PyStr.char -> bool)
  (int_of : str -> option Z)
  (response : option str) (u u' : UserInfo) :
  extract_user_info lower isdigit int_of response u = Done u' ->
  (first_name u' = first_name u
   \/ (first_name u' <> []
       /\ forallb (fun c => negb (PyStr.isspace c)) (first_name u')
          = true))
  /\ (id_number u' = id_number u
      \/ (length (id_number u') = 9%nat
          /\ forallb isdigit (id_number u') = true))
  /\ (gender u' = gender u
      \/ gender u' = PyText.text "Male"
      \/ gender u' = PyText.text "Female")
  /\ (age u' = age u \/ (0 <= age u' <= 120)%Z)
  /\ (hmo_name u' = hmo_name u
      \/ In (hmo_name u')
            [PyText.text "מכבי"; PyText.text "כללית";
             PyText.text "מאוחדת"; PyText.text "לאומית"])
  /\ (hmo_card_number u' = hmo_card_number u
      \/ ((8 <= length (hmo_card_number u'))%nat
          /\ forallb isdigit (hmo_card_number u') = true))
  /\ (membership_tier u' = membership_tier u
      \/ In (membership_tier u')
            [PyText.text "זהב"; PyText.text "כסף"; PyText.text "ארד"]).
Proof.
  intros H.
  apply (extract_user_info_by_steps lower isdigit int_of
           (extracted_from isdigit) response u u');
    [apply extracted_from_refl | apply extracted_from_trans | | exact H].
  intros m c a u0 _ _ _. apply extract_answer_extracted.
Qed.

Lemma X12_witness_interview :
  (first_name (Desk.extracted Desk.dana) = first_name Desk.dana
   \/ (first_name (Desk.extracted Desk.dana) <> []
       /\ forallb (fun c => negb (PyStr.isspace c))
                  (first_name (Desk.extracted Desk.dana)) = true))
  /\ (id_number (Desk.extracted Desk.dana) = id_number Desk.dana
      \/ (length (id_number (Desk.extracted Desk.dana)) = 9%nat
          /\ forallb Desk.isdigit (id_number (Desk.extracted Desk.dana))
             = true))
  /\ (gender (Desk.extracted Desk.dana) = gender Desk.dana
      \/ gender (Desk.extracted Desk.dana) = PyText.text "Male"
      \/ gender (Desk.extracted Desk.dana) = PyText.text "Female")
  /\ (age (Desk.extracted Desk.dana) = age Desk.dana
      \/ (0 <= age (Desk.extracted Desk.dana) <= 120)%Z)
  /\ (hmo_name (Desk.extracted Desk.dana) = hmo_name Desk.dana
      \/ In (hmo_name (Desk.extracted Desk.dana))
            [PyText.text "מכבי"; PyText.text "כללית";
             PyText.text "מאוחדת"; PyText.text "לאומית"])
  /\ (hmo_card_number (Desk.extracted Desk.dana)
      = hmo_card_number Desk.dana
      \/ ((8 <= length (hmo_card_number (Desk.extracted Desk.dana)))%nat
          /\ forallb Desk.isdigit
                     (hmo_card_number (Desk.extracted Desk.dana)) = true))
  /\ (membership_tier (Desk.extracted Desk.dana)
      = membership_tier Desk.dana
      \/ In (membership_tier (Desk.extracted Desk.dana))
            [PyText.text "זהב"; PyText.text "כסף"; PyText.text "ארד"]).
Proof.
  apply (X12_extracted_values_have_fixed_shapes
           Desk.lower Desk.isdigit Desk.int_of None
           Desk.dana (Desk.extracted Desk.dana)).
  vm_compute. reflexivity.
Defined.

(** X13: [extract_user_info] reads only the answers that follow a
    message whose role is "assistant": on a history in which every
    message has a role and none has that one (for instance only "user"
    and "system", the two roles [get_openai_response] sends on), it
    returns the user information unchanged. *)
Theorem X13_extraction_needs_assistant_role
  (lower : str -> str) (isdigit : PyStr.char -> bool)
  (int_of : str -> option Z)
  (response : option str) (u : UserInfo) :
  Forall (fun m => exists role,
              dict_get m (PyText.text "role") = Some role
              /\ is_str role (PyText.text "assistant") = false)
         (conversation_history u) ->
  extract_user_info lower isdigit int_of response u = Done u.
Proof.
  intros H. unfold extract_user_info.
  destruct (conversation_history u) as [|m h] eqn:E; [reflexivity|].
  apply extract_loop_other_roles. exact H.
Qed.

Lemma X13_witness_system_role :
  extract_user_info Desk.lower Desk.isdigit Desk.int_of None
    (with_history Desk.nobody
       [Desk.says "system" "What is your full name?";
        Desk.says "user" "Dana Levi"])
  = Done (with_history Desk.nobody
            [Desk.says "system" "What is your full name?";
             Desk.says "user" "Dana Levi"]).
Proof.
  apply (X13_extraction_needs_assistant_role
           Desk.lower Desk.isdigit Desk.int_of None
           (with_history Desk.nobody
              [Desk.says "system" "What is your full name?";
               Desk.says "user" "Dana Levi"])).
  repeat constructor; eexists; split; reflexivity.
Defined.

(** X14: when [extract_user_info] sets the gender to "Female", some
    message of the history has a content whose stripped, lowercased text
    holds one of the Hebrew words for a woman and none of the words
    listed for a man; in particular that text holds neither "female" nor
    "woman", which both hold a word listed for a man. *)
Theorem X14_female_only_from_hebrew_answers
  (lower : str -> str) (isdigit : PyStr.char -> bool)
  (int_of : str -> option Z)
  (response : option str) (u u' : UserInfo) :
  extract_user_info lower isdigit int_of response u = Done u' ->
  gender u' = PyText.text "Female" ->
  gender u <> PyText.text "Female" ->
  exists m a,
    In m (conversation_history u)
    /\ answer_of lower m a
    /\ (PyText.contains (PyText.text "נקבה") a
        || PyText.contains (PyText.text "אישה") a) = true
    /\ PyText.any_in Keywords.male a = false
    /\ PyText.contains (PyText.text "female") a = false
    /\ PyText.contains (PyText.text "woman") a = false.
Proof.
  intros H G N.
  assert (P : gender u' = PyText.text "Female" ->
              gender u = PyText.text "Female"
              \/ exists m a,
                   In m (conversation_history u)
                   /\ answer_of lower m a
                   /\ (PyText.contains (PyText.text "נקבה") a
                       || PyText.contains (PyText.text "אישה") a) = true
                   /\ PyText.any_in Keywords.male a = false
                   /\ PyText.contains (PyText.text "female") a = false
                   /\ PyText.contains (PyText.text "woman") a = false).
  { apply (extract_user_info_by_steps lower isdigit int_of
             (fun u0 u1 =>
                gender u1 = PyText.text "Female" ->
                gender u0 = PyText.text "Female"
                \/ exists m a,
                     In m (conversation_history u)
                     /\ answer_of lower m a
                     /\ (PyText.contains (PyText.text "נקבה") a
                         || PyText.contains (PyText.text "אישה") a)
                        = true
                     /\ PyText.any_in Keywords.male a = false
                     /\ PyText.contains (PyText.text "female") a = false
                     /\ PyText.contains (PyText.text "woman") a = false)
             response u u'); [| | | exact H].
    - intros u0 E. left; exact E.
    - intros u1 u2 u3 P12 P23 E.
      destruct (P23 E) as [E2 | Ex]; [apply P12; exact E2 | right; exact Ex].
    - intros m c a u0 Hin Hc _ E.
      apply extract_answer_female in E as [E | (F1 & F2 & F3 & F4)];
        [left; exact E|].
      right. exists m, (lower (PyStr.strip c)).
      repeat split; try assumption.
      exists c. split; [exact Hc | reflexivity]. }
  destruct (P G) as [E | Ex]; [contradiction | exact Ex].
Qed.

Lemma X14_witness_hebrew_answer :
  exists m a,
    In m (conversation_history Desk.rina)
    /\ answer_of Desk.lower m a
    /\ (PyText.contains (PyText.text "נקבה") a
        || PyText.contains (PyText.text "אישה") a) = true
    /\ PyText.any_in Keywords.male a = false
    /\ PyText.contains (PyText.text "female") a = false
    /\ PyText.contains (PyText.text "woman") a = false.
Proof.
  apply (X14_female_only_from_hebrew_answers
           Desk.lower Desk.isdigit Desk.int_of None
           Desk.rina (Desk.extracted Desk.rina)).
  - vm_compute. reflexivity.
  - vm_compute. reflexivity.
  - vm_compute. discriminate.
Defined.

(* ------------------------------------------------------------------ *)
(** ** The chat handlers *)
(* ------------------------------------------------------------------ *)



Section HandlerFacts.

Variable provider : nat -> str -> option Faiss.vec.
Variable chat : nat -> list chat_message -> option (option str).
Variable info_collection_prompt : UserInfo -> str.
Variable qna_prompt : UserInfo -> value -> str -> str.
Variable lower : str -> str.
Variable isdigit : PyStr.char -> bool.
Variable int_of : str -> option Z.

(** The part of [get_openai_response] that follows the choice of the
    prompt. *)
Lemma send_prompt_run (u : UserInfo) (prompt : str) (s : Session) :
  app_bind (of_outcome (forward_history (conversation_history u)))
    (fun forwarded =>
       chat_completion chat
         ({| chat_role := PyText.text "system";
             chat_text := VStr prompt |} :: forwarded)) s
  = match forward_history (conversation_history u) with
    | Done forwarded =>
        let messages :=
          {| chat_role := PyText.text "system";
             chat_text := VStr prompt |} :: forwarded in
        (match chat (length (chat_log s)) messages with
         | Some content => Done content
         | None => Failed ChatError
         end,
         {| world := world s; chat_log := chat_log s ++ [messages] |})
    | Failed e => (Failed e, s)
    end.
Proof.
  unfold app_bind, of_outcome, chat_completion.
  destruct (forward_history (conversation_history u)); [|reflexivity].
  destruct (chat _ _); reflexivity.
Qed.

Lemma get_openai_response_info (u : UserInfo) (query : value) s :
  get_openai_response provider chat info_collection_prompt qna_prompt
    u (PyText.text "info_collection") query s
  = app_bind (of_outcome (forward_history (conversation_history u)))
      (fun forwarded =>
         chat_completion chat
           ({| chat_role := PyText.text "system";
               chat_text := VStr (info_collection_prompt u) |}
              :: forwarded)) s.
Proof. reflexivity. Qed.

Lemma get_openai_response_qna (u : UserInfo) (query : value) s :
  get_openai_response provider chat info_collection_prompt qna_prompt
    u (PyText.text "qna") query s
  = match get_knowledge_base_of provider query (world s) with
    | (Ok context, w') =>
        app_bind (of_outcome (forward_history (conversation_history u)))
          (fun forwarded =>
             chat_completion chat
               ({| chat_role := PyText.text "system";
                   chat_text :=
                     VStr (qna_prompt u query (format_context context)) |}
                  :: forwarded))
          {| world := w'; chat_log := chat_log s |}
    | (Raise e, w') =>
        (Failed (Retrieval e), {| world := w'; chat_log := chat_log s |})
    end.
Proof.
  unfold get_openai_response.
  change (PyStr.eqb (PyText.text "qna") (PyText.text "info_collection"))
    with false.
  change (PyStr.eqb (PyText.text "qna") (PyText.text "qna")) with true.
  cbv iota. unfold app_bind at 1 2, of_retrieval.
  destruct (get_knowledge_base_of provider query (world s)) as [[c|e] w'];
    reflexivity.
Qed.

End HandlerFacts.

Lemma query_on_import
  (provider : nat -> str -> option Faiss.vec)
  (src : source) (w0 w1 w : World) (q : str) (v : Faiss.vec) :
  module_init provider src w0 = (Ok tt, w1) ->
  globals w = globals w1 ->
  degenerate q = false ->
  provider (embed_calls (trace w)) q = Some v ->
  embedding_dimension (globals w) = Some (length v) ->
  exists r docs,
    get_knowledge_base provider (Some q) w
    = (Ok r, {| globals := globals w;
                trace := trace w ++ [EmbedCall q; SearchCall v 4] |})
    /\ knowledge_base_documents (globals w) = Some docs
    /\ length r = 4%nat
    /\ Forall (fun doc => In doc docs) r.
Proof.
  intros Hinit Hsame Hq Hp Hdim.
  apply module_init_ok in Hinit as (docs & Hkb & B & _).
  rewrite <- Hsame in Hkb, B.
  destruct (retrieve_on_built provider _ docs q w v B Hkb Hp Hdim)
    as (r & Hr & Hlen).
  destruct B as (D & embs & HD & Hix & Hne & Hl & _ & _).
  assert (D = length v) by congruence; subst D.
  pose proof (retrieve_by_ranking provider q w v embs docs
                Hix Hkb Hl Hne Hp) as E.
  cbv zeta in E. rewrite Hr in E. inversion E as [Er].
  exists r, docs. simpl. rewrite Hq, Hr.
  split; [reflexivity|]. split; [exact Hkb|]. split; [exact Hlen|].
  rewrite Er. apply Forall_forall. intros doc Hin.
  eapply flat_map_picked_In; exact Hin.
Qed.

Section HandlerProperties.

Variable provider : nat -> str -> option Faiss.vec.
Variable chat : nat -> list chat_message -> option (option str).
Variable info_collection_prompt : UserInfo -> str.
Variable qna_prompt : UserInfo -> value -> str -> str.
Variable lower : str -> str.
Variable isdigit : PyStr.char -> bool.
Variable int_of : str -> option Z.

(** X15: [POST /collect_info] stays away from the retrieval module: for
    every request and whatever the chat model answers, the retrieval
    world after the request (the index, the document list and the trace
    of embeddings calls and searches) is the one before it, and at most
    one chat request has been made. *)
Theorem X15_collect_info_makes_no_retrieval
  (u : UserInfo) (s : Session) :
  world (snd (collect_info provider chat info_collection_prompt
                           qna_prompt lower isdigit int_of u s))
  = world s
  /\ (chat_log (snd (collect_info provider chat info_collection_prompt
                                  qna_prompt lower isdigit int_of u s))
      = chat_log s
      \/ exists messages,
           chat_log (snd (collect_info provider chat
                            info_collection_prompt qna_prompt
                            lower isdigit int_of u s))
           = chat_log s ++ [messages]).
Proof.
  remember (collect_info provider chat info_collection_prompt qna_prompt
              lower isdigit int_of u s) as run eqn:R.
  unfold collect_info, respond in R. unfold app_bind at 1 in R.
  rewrite get_openai_response_info, send_prompt_run in R.
  destruct (forward_history (conversation_history u)) as [fwd|e];
    [|subst run; simpl; auto].
  cbv zeta in R.
  destruct (chat _ _) as [content|].
  - unfold app_bind, of_outcome, done in R.
    destruct (extract_user_info _ _ _ _ _); subst run; simpl;
      (split; [reflexivity | right; eexists; reflexivity]).
  - subst run; simpl. split; [reflexivity | right; eexists; reflexivity].
Qed.

(** X16: [POST /qa] on a history whose last message holds a non-blank
    string: if the embeddings call for that string fails, the answer is
    status 500 caused by that failure, one embeddings call has been
    made, the globals of the retrieval module are unchanged and no chat
    request has been made. *)
Theorem X16_qa_provider_failure_is_500_without_chat
  (u : UserInfo) (s : Session) (q : str) :
  latest_content (conversation_history u) = Done (VStr q) ->
  degenerate q = false ->
  provider (embed_calls (trace (world s))) q = None ->
  qa provider chat info_collection_prompt qna_prompt u s
  = (Http500 (option str) (Retrieval ProviderError),
     {| world := {| globals := globals (world s);
                    trace := trace (world s) ++ [EmbedCall q] |};
        chat_log := chat_log s |}).
Proof.
  intros Hl Hq Hp. unfold qa, respond, app_bind at 1, of_outcome.
  rewrite Hl, get_openai_response_qna.
  unfold get_knowledge_base_of, get_knowledge_base. rewrite Hq.
  rewrite (retrieve_provider_failure provider q (world s) Hp).
  reflexivity.
Qed.

(** X17: [POST /qa] on an empty history, or on a history whose last
    message holds an empty or all-whitespace string: no embeddings call
    and no search is made; the chat model is asked once, with a prompt
    whose knowledge-base part is the single placeholder entry
    "Document 1 (no_document.html)" asking for a specific question. *)
Theorem X17_qa_blank_question_skips_retrieval
  (u : UserInfo) (s : Session) (q : str)
  (forwarded : list chat_message) :
  latest_content (conversation_history u) = Done (VStr q) ->
  PyStr.blank q = true ->
  forward_history (conversation_history u) = Done forwarded ->
  qa provider chat info_collection_prompt qna_prompt u s
  = (match chat (length (chat_log s))
             ({| chat_role := PyText.text "system";
                 chat_text :=
                   VStr (qna_prompt u (VStr q)
                           (PyText.text "Document 1 (no_document.html):"
                            ++ [10%N]
                            ++ PyText.text
                                 "Please ask a specific question about medical services."
                            ++ [10%N; 10%N])) |}
                :: forwarded) with
     | Some content => Http200 (option str) content
     | None => Http500 (option str) ChatError
     end,
     {| world := world s;
        chat_log :=
          chat_log s
          ++ [{| chat_role := PyText.text "system";
                 chat_text :=
                   VStr (qna_prompt u (VStr q)
                           (PyText.text "Document 1 (no_document.html):"
                            ++ [10%N]
                            ++ PyText.text
                                 "Please ask a specific question about medical services."
                            ++ [10%N; 10%N])) |}
                :: forwarded] |}).
Proof.
  intros Hl Hb Hf. unfold qa, respond, app_bind at 1, of_outcome.
  rewrite Hl, get_openai_response_qna.
  unfold get_knowledge_base_of.
  rewrite (degenerate_query_returns provider (Some q) (world s))
    by (right; exists q; auto).
  rewrite send_prompt_run, Hf. cbv zeta.
  change (format_context [no_question])
    with (PyText.text "Document 1 (no_document.html):"
          ++ [10%N]
          ++ PyText.text
               "Please ask a specific question about medical services."
          ++ [10%N; 10%N]).
  cbn [world chat_log].
  destruct (chat _ _); reflexivity.
Qed.

(** X18: [POST /qa] on the index left by a successful import, with a
    last message holding a non-blank string whose embedding has the
    recorded dimension and a history that can be forwarded: one
    embeddings call and one search for 4 neighbours are made, then one
    chat request, whose prompt is built on the formatted text of exactly
    four entries, all of them documents of the knowledge base. *)
Theorem X18_qa_prompt_is_built_on_four_documents
  (src : source) (w0 w1 : World)
  (u : UserInfo) (s : Session) (q : str) (v : Faiss.vec)
  (forwarded : list chat_message) :
  module_init provider src w0 = (Ok tt, w1) ->
  globals (world s) = globals w1 ->
  latest_content (conversation_history u) = Done (VStr q) ->
  degenerate q = false ->
  provider (embed_calls (trace (world s))) q = Some v ->
  embedding_dimension (globals (world s)) = Some (length v) ->
  forward_history (conversation_history u) = Done forwarded ->
  exists r docs messages,
    knowledge_base_documents (globals (world s)) = Some docs
    /\ length r = 4%nat
    /\ Forall (fun doc => In doc docs) r
    /\ messages
       = {| chat_role := PyText.text "system";
            chat_text :=
              VStr (qna_prompt u (VStr q) (format_context r)) |}
           :: forwarded
    /\ qa provider chat info_collection_prompt qna_prompt u s
       = (match chat (length (chat_log s)) messages with
          | Some content => Http200 (option str) content
          | None => Http500 (option str) ChatError
          end,
          {| world :=
               {| globals := globals (world s);
                  trace := trace (world s)
                           ++ [EmbedCall q; SearchCall v 4] |};
             chat_log := chat_log s ++ [messages] |}).
Proof.
  intros Hinit Hsame Hl Hq Hp Hdim Hf.
  destruct (query_on_import provider src w0 w1 (world s) q v
              Hinit Hsame Hq Hp Hdim)
    as (r & docs & Hrun & Hkb & Hlen & Hin).
  exists r, docs.
  eexists. split; [exact Hkb|]. split; [exact Hlen|].
  split; [exact Hin|]. split; [reflexivity|].
  unfold qa, respond, app_bind at 1, of_outcome.
  rewrite Hl, get_openai_response_qna.
  unfold get_knowledge_base_of. rewrite Hrun.
  rewrite send_prompt_run, Hf. cbv zeta. cbn [world chat_log].
  destruct (chat _ _); reflexivity.
Qed.



End HandlerProperties.

Lemma X16_witness_fault_during_question :
  qa (Fixture.faulty_at 2) Desk.chat Desk.info_collection_prompt
     Desk.qna_prompt (Desk.asks Fixture.question)
     (Desk.opened Fixture.two_documents)
  = (Http500 (option str) (Retrieval ProviderError),
     {| world :=
          {| globals := globals (world (Desk.opened Fixture.two_documents));
             trace := trace (world (Desk.opened Fixture.two_documents))
                      ++ [EmbedCall Fixture.question] |};
        chat_log := chat_log (Desk.opened Fixture.two_documents) |}).
Proof.
  apply (X16_qa_provider_failure_is_500_without_chat
           (Fixture.faulty_at 2) Desk.chat Desk.info_collection_prompt
           Desk.qna_prompt (Desk.asks Fixture.question)
           (Desk.opened Fixture.two_documents) Fixture.question);
    reflexivity.
Defined.

Lemma X17_witness_empty_history :
  qa Fixture.provider Desk.chat Desk.info_collection_prompt
     Desk.qna_prompt Desk.nobody (Desk.opened Fixture.two_documents)
  = (match Desk.chat
             (length (chat_log (Desk.opened Fixture.two_documents)))
             ({| chat_role := PyText.text "system";
                 chat_text :=
                   VStr (Desk.qna_prompt Desk.nobody (VStr [])
                           (PyText.text "Document 1 (no_document.html):"
                            ++ [10%N]
                            ++ PyText.text
                                 "Please ask a specific question about medical services."
                            ++ [10%N; 10%N])) |}
                :: []) with
     | Some content => Http200 (option str) content
     | None => Http500 (option str) ChatError
     end,
     {| world := world (Desk.opened Fixture.two_documents);
        chat_log :=
          chat_log (Desk.opened Fixture.two_documents)
          ++ [{| chat_role := PyText.text "system";
                 chat_text :=
                   VStr (Desk.qna_prompt Desk.nobody (VStr [])
                           (PyText.text "Document 1 (no_document.html):"
                            ++ [10%N]
                            ++ PyText.text
                                 "Please ask a specific question about medical services."
                            ++ [10%N; 10%N])) |}
                :: []] |}).
Proof.
  apply (X17_qa_blank_question_skips_retrieval
           Fixture.provider Desk.chat Desk.info_collection_prompt
           Desk.qna_prompt Desk.nobody
           (Desk.opened Fixture.two_documents) [] []);
    reflexivity.
Defined.

Lemma X18_witness_question_on_two_documents :
  exists r docs messages,
    knowledge_base_documents
      (globals (world (Desk.opened Fixture.two_documents))) = Some docs
    /\ length r = 4%nat
    /\ Forall (fun doc => In doc docs) r
    /\ messages
       = {| chat_role := PyText.text "system";
            chat_text :=
              VStr (Desk.qna_prompt (Desk.asks Fixture.question)
                      (VStr Fixture.question) (format_context r)) |}
           :: [{| chat_role := PyText.text "user";
                  chat_text := VStr Fixture.question |}]
    /\ qa Fixture.provider Desk.chat Desk.info_collection_prompt
          Desk.qna_prompt (Desk.asks Fixture.question)
          (Desk.opened Fixture.two_documents)
       = (match Desk.chat
                  (length (chat_log (Desk.opened Fixture.two_documents)))
                  messages with
          | Some content => Http200 (option str) content
          | None => Http500 (option str) ChatError
          end,
          {| world :=
               {| globals :=
                    globals (world (Desk.opened Fixture.two_documents));
                  trace :=
                    trace (world (Desk.opened Fixture.two_documents))
                    ++ [EmbedCall Fixture.question;
                        SearchCall [3; 1]%Z 4] |};
             chat_log :=
               chat_log (Desk.opened Fixture.two_documents)
               ++ [messages] |}).
Proof.
  apply (X18_qa_prompt_is_built_on_four_documents
           Fixture.provider Desk.chat Desk.info_collection_prompt
           Desk.qna_prompt Fixture.two_documents Fixture.fresh
           (Fixture.imported Fixture.two_documents)
           (Desk.asks Fixture.question)
           (Desk.opened Fixture.two_documents)
           Fixture.question [3; 1]%Z
           [{| chat_role := PyText.text "user";
               chat_text := VStr Fixture.question |}]);
    reflexivity.
Defined.


(** X20: whatever the state, a query that is a string with a
    non-whitespace character makes exactly one embeddings call, on the
    query text as given, and after it at most one search of the index,
    for 4 neighbours; this holds whether the call returns or raises. *)
Theorem X20_one_embedding_call_per_query
  (provider : nat -> str -> option Faiss.vec)
  (q : str) (w : World) :
  PyStr.blank q = false ->
  trace (snd (get_knowledge_base provider (Some q) w))
  = trace w ++ [EmbedCall q]
  \/ exists v,
       provider (embed_calls (trace w)) q = Some v
       /\ trace (snd (get_knowledge_base provider (Some q) w))
          = trace w ++ [EmbedCall q; SearchCall v 4].
Proof.
  intros Hb.
  assert (Hq : degenerate q = false).
  { destruct (degenerate q) eqn:E; [|reflexivity].
    apply degenerate_iff_blank in E. congruence. }
  destruct (get_knowledge_base provider (Some q) w) as [r w'] eqn:R.
  cbn [snd]. simpl in R. rewrite Hq in R.
  unfold retrieve, bind at 1 in R.
  destruct (provider (embed_calls (trace w)) q) as [v|] eqn:P.
  - rewrite (generate_embeddings_returns provider q w v P) in R.
    unfold bind at 1, get_globals in R; simpl in R.
    unfold bind at 1 in R.
    destruct (index (globals w)) as [ix|]; simpl in R;
      [|inversion R; subst; left; reflexivity].
    right. exists v. split; [reflexivity|].
    unfold bind at 1, emit in R; simpl in R.
    unfold bind at 1 in R.
    destruct (Faiss.search ix v 4) as [found|]; simpl in R;
      [|inversion R; subst; simpl; rewrite <- app_assoc; reflexivity].
    unfold bind at 1 in R.
    match type of R with
    | context [closest_loop ?kb ?l ?acc ?w1] =>
        rewrite (closest_loop_pure kb l acc w1 w1) in R
    end.
    destruct (fst (closest_loop _ _ _ _)) as [[|doc more]|e];
      inversion R; subst; simpl; rewrite <- app_assoc; reflexivity.
  - rewrite (generate_embeddings_fails provider q w P) in R.
    inversion R; subst. left; reflexivity.
Qed.

Lemma X20_witness_padded_query :
  trace (snd (get_knowledge_base
                Fixture.provider (Some (PyStr.lit "  where is it?  "))
                (Fixture.imported Fixture.two_documents)))
  = trace (Fixture.imported Fixture.two_documents)
    ++ [EmbedCall (PyStr.lit "  where is it?  ")]
  \/ exists v,
       Fixture.provider
         (embed_calls (trace (Fixture.imported Fixture.two_documents)))
         (PyStr.lit "  where is it?  ") = Some v
       /\ trace (snd (get_knowledge_base
                        Fixture.provider
                        (Some (PyStr.lit "  where is it?  "))
                        (Fixture.imported Fixture.two_documents)))
          = trace (Fixture.imported Fixture.two_documents)
            ++ [EmbedCall (PyStr.lit "  where is it?  ");
                SearchCall v 4].
Proof.
  apply (X20_one_embedding_call_per_query
           Fixture.provider (PyStr.lit "  where is it?  ")
           (Fixture.imported Fixture.two_documents)).
  reflexivity.
Defined.
